(** * cryptofeed/rest/gdax.py : the GDAX REST client

    A shallow embedding of [cryptofeed.rest.gdax.Gdax] and the properties of
    its request signer, its retrying request dispatcher, its endpoint
    builders and its record normalisation.

    Python values that the module handles are JSON documents ([json]);
    exceptions are values of [exn]; a computation that may raise returns a
    [res]; a computation that also talks to the network, the clock and the
    logger is a function on a [world] (monad [M]).  Name resolution follows
    Python: a name assigned anywhere in a function body is local to it and
    raises [UnboundLocalError] when read before its first assignment, any
    other name is looked up in the module's global namespace and raises
    [NameError] when it is not there. *)

From Stdlib Require Import ZArith Lia List String Ascii Bool.
From stdpp Require Import base option strings list gmap pretty.

Set Warnings "-register-all".
Local Open Scope string_scope.
Local Open Scope list_scope.
Local Open Scope Z_scope.

(** ** Python values and exceptions *)

(** JSON documents, as [resp.json()] returns them and as the callers pass
    them in.  A JSON object keeps its members in document order; numbers
    are the integers (the exchange sends its decimals as strings). *)
Inductive json : Type :=
| JNull
| JBool (b : bool)
| JNum (n : Z)
| JStr (s : string)
| JList (items : list json)
| JObj (members : list (string * json)).

(** Everything a name of the module can be bound to. *)
Inductive pyobj : Type :=
| PyData (j : json)
| PyModule (name : string)
| PyClass (name : string)
| PyFunction (name : string)
| PyLogger.

Definition PyNone : pyobj := PyData JNull.
Definition PyInt (n : Z) : pyobj := PyData (JNum n).

Inductive exn : Type :=
| NameError (name : string)
| UnboundLocalError (name : string)
| TypeError (what : string)
| KeyError (key : string)
| AttributeError (attr : string)
| ValueError (what : string)
| UnicodeEncodeError
| Base64Error
| JSONDecodeError
| HTTPError (status : Z)
| TimeoutError
| ConnectionError.

Inductive res (A : Type) : Type :=
| Ok (a : A)
| Raise (e : exn).
Arguments Ok {A} a.
Arguments Raise {A} e.

Definition res_bind {A B} (r : res A) (k : A -> res B) : res B :=
  match r with
  | Ok a => k a
  | Raise e => Raise e
  end.

Declare Scope res_scope.
Delimit Scope res_scope with res.
Notation "x <-? r ; k" := (res_bind r (fun x => k))
  (at level 100, r at next level, right associativity) : res_scope.

Definition is_ok {A} (r : res A) : bool :=
  match r with Ok _ => true | Raise _ => false end.

(** ** Collaborators outside this module *)

(** The parts of the surrounding framework and of third-party libraries the
    client calls: the feed identifier [GDAX] (from [cryptofeed.feeds]), the
    pair translator (from [cryptofeed.standards]), [json.dumps],
    [pd.Timestamp(d).to_pydatetime()] and [datetime.strptime] (both as a
    point on a common time line), and [base64] / [hmac] / [hashlib]. *)
Class Collaborators := {
  GDAX : json;
  pair_std_to_exchange : string -> json -> res string;
  json_dumps : json -> string;
  pd_Timestamp : json -> res Z;
  strptime : json -> string -> res Z;
  b64decode : string -> res (list Z);
  b64encode : list Z -> string;
  hmac_sha256 : list Z -> list Z -> list Z
}.

(** The attributes the base class [API] sets on construction. *)
Record client := {
  key_id : string;
  key_secret : string;
  key_passphrase : string;
  sandbox : bool
}.

Definition api : string := "https://api.gdax.com".
Definition sandbox_api : string := "https://api-public.sandbox.gdax.com".

(** ** Name resolution *)

(** The module namespace of [gdax.py] after its import block, its two
    module-level assignments and the class statement have run, together with
    the builtins the module refers to.  (Python has no builtin named
    [retry], [retry_wait], [body], [headers] or [datetime].) *)
Definition module_globals {env : Collaborators} : gmap string pyobj :=
  list_to_map
    [ ("time", PyModule "time"); ("json", PyModule "json");
      ("hashlib", PyModule "hashlib"); ("hmac", PyModule "hmac");
      ("calendar", PyModule "calendar"); ("requests", PyModule "requests");
      ("base64", PyModule "base64"); ("sleep", PyFunction "time.sleep");
      ("dt", PyClass "datetime.datetime"); ("pd", PyModule "pandas");
      ("API", PyClass "cryptofeed.rest.api.API");
      ("GDAX", PyData GDAX);
      ("get_logger", PyFunction "cryptofeed.log.get_logger");
      ("pair_std_to_exchange", PyFunction "cryptofeed.standards.pair_std_to_exchange");
      ("pair_exchange_to_std", PyFunction "cryptofeed.standards.pair_exchange_to_std");
      ("REQUEST_LIMIT", PyInt 10); ("LOG", PyLogger);
      ("Gdax", PyClass "Gdax");
      ("str", PyClass "str"); ("dict", PyClass "dict");
      ("list", PyClass "list"); ("map", PyClass "map");
      ("TimeoutError", PyClass "TimeoutError") ].

(** A name that is not local to the function reading it. *)
Definition load_global (globals : gmap string pyobj) (x : string) : res pyobj :=
  match globals !! x with
  | Some v => Ok v
  | None => Raise (NameError x)
  end.

(** A local name; [locals] holds the ones bound so far. *)
Definition load_local (locals : gmap string pyobj) (x : string) : res pyobj :=
  match locals !! x with
  | Some v => Ok v
  | None => Raise (UnboundLocalError x)
  end.

(** ** The world: network, clock, log *)

Inductive loglevel := Warning | Error.

Record response := {
  status_code : Z;
  headers : list (string * string);
  text : string;
  parsed : option json   (* [resp.json()]; [None] when the body is not JSON *)
}.

Inductive net_outcome :=
| Responds (r : response)
| Fails (e : exn).

Inductive event :=
| EvRequest (method url : string) (header : pyobj) (body : option json)
| EvSleep (seconds : pyobj)
| EvLog (lvl : loglevel) (fmt : string).

Record world := {
  transport : nat -> net_outcome;  (* what the n-th HTTP attempt meets *)
  clock : nat -> string;           (* [str(time.time())] at the n-th reading *)
  attempts : nat;
  clock_reads : nat;
  trace : list event
}.

Definition M (A : Type) : Type := world -> option (res A) * world.

Definition ret {A} (a : A) : M A := fun w => (Some (Ok a), w).
Definition raise {A} (e : exn) : M A := fun w => (Some (Raise e), w).
Definition diverge {A} : M A := fun w => (None, w).
Definition lift {A} (r : res A) : M A := fun w => (Some r, w).

Definition bind {A B} (m : M A) (k : A -> M B) : M B :=
  fun w =>
    match m w with
    | (Some (Ok a), w') => k a w'
    | (Some (Raise e), w') => (Some (Raise e), w')
    | (None, w') => (None, w')
    end.

Declare Scope gdax_scope.
Delimit Scope gdax_scope with gdax.
Notation "x <- m ;; k" := (bind m (fun x => k))
  (at level 100, m at next level, right associativity) : gdax_scope.
Notation "m ;;; k" := (bind m (fun _ => k))
  (at level 100, right associativity) : gdax_scope.
Local Open Scope gdax_scope.
Local Open Scope Z_scope.

Definition emit (e : event) : M unit :=
  fun w => (Some (Ok tt),
            {| transport := transport w; clock := clock w;
               attempts := attempts w; clock_reads := clock_reads w;
               trace := trace w ++ [e] |}).

Definition log (lvl : loglevel) (fmt : string) : M unit := emit (EvLog lvl fmt).

(** [time.sleep]: it sleeps for a number that is not negative ([bool] is a
    subclass of [int]), raises [ValueError] for a negative number and
    [TypeError] for anything that is no number. *)
Definition sleep (seconds : pyobj) : M unit :=
  match seconds with
  | PyData (JNum n) =>
      if n <? 0 then raise (ValueError "sleep length must be non-negative")
      else emit (EvSleep seconds)
  | PyData (JBool _) => emit (EvSleep seconds)
  | _ => raise (TypeError "an integer or float is required")
  end.

(** [time.time()] rendered by [str]. *)
Definition time_time : M string :=
  fun w => (Some (Ok (clock w (clock_reads w))),
            {| transport := transport w; clock := clock w;
               attempts := attempts w; clock_reads := S (clock_reads w);
               trace := trace w |}).

(** One call of [requests.get], [requests.post] or [requests.delete]. *)
Definition http (method url : string) (header : pyobj) (body : option json)
  : M net_outcome :=
  fun w => (Some (Ok (transport w (attempts w))),
            {| transport := transport w; clock := clock w;
               attempts := S (attempts w); clock_reads := clock_reads w;
               trace := trace w ++ [EvRequest method url header body] |}).

(** [Response.raise_for_status] of the [requests] library: it raises
    [HTTPError] for the 4xx and 5xx status codes and returns for every
    other one. *)
Definition raise_for_status (r : response) : res unit :=
  if (400 <=? status_code r) && (status_code r <? 600)
  then Raise (HTTPError (status_code r))
  else Ok tt.

Definition resp_json (r : response) : res json :=
  match parsed r with
  | Some j => Ok j
  | None => Raise JSONDecodeError
  end.

(** [try: m except E: h]: the handler sees what [m] raised, in the world
    [m] left behind; what the handler itself raises is not caught again. *)
Definition try_except {A} (m : M A) (handler : exn -> M A) : M A :=
  fun w =>
    match m w with
    | (Some (Raise e), w') => handler e w'
    | other => other
    end.

(** ** Operators on Python values *)

(** [x is not None] *)
Definition is_not_None (x : pyobj) : bool :=
  match x with
  | PyData JNull => false
  | _ => true
  end.

(** [x == 0] *)
Definition eq_zero (x : pyobj) : bool :=
  match x with
  | PyData (JNum n) => n =? 0
  | PyData (JBool b) => negb b
  | _ => false
  end.

(** [x - 1] *)
Definition minus_one (x : pyobj) : res pyobj :=
  match x with
  | PyData (JNum n) => Ok (PyInt (n - 1))
  | PyData (JBool b) => Ok (PyInt ((if b then 1 else 0) - 1))
  | _ => Raise (TypeError "unsupported operand type(s) for -=")
  end.

(** ** The request dispatcher *)

Section Dispatcher.
Context {env : Collaborators} (self : client).

(** The frame of [_make_request].  Its parameters are [self], [method],
    [endpoint], [header] and [body]; the names its body assigns, [api],
    [resp], [e] and [retry] (by [retry -= 1]), are local too; [retry_wait]
    is assigned nowhere, so it is read from the module namespace. *)
Definition base_url : string := if sandbox self then sandbox_api else api.

(** The body of the [try] block: at most one HTTP call; [resp] stays
    unbound for a method other than the three. *)
Definition send (method endpoint : string) (header : pyobj) (body : option json)
  : M (option response) :=
  let url := base_url +:+ endpoint in
  if String.eqb method "GET" then
    o <- http "GET" url header None ;;
    match o with Responds r => ret (Some r) | Fails e => raise e end
  else if String.eqb method "POST" then
    o <- http "POST" url header body ;;
    match o with Responds r => ret (Some r) | Fails e => raise e end
  else if String.eqb method "DELETE" then
    o <- http "DELETE" url header None ;;
    match o with Responds r => ret (Some r) | Fails e => raise e end
  else ret None.

(** The body shared by the two [except] clauses, after the warning is
    logged: it ends in [continue] (the updated frame is returned) or in a
    bare [raise] of the exception being handled. *)
Definition on_transport_failure
    (globals locals : gmap string pyobj) (e : exn) (fmt : string)
  : M (gmap string pyobj) :=
  log Warning fmt ;;;
  retry <- lift (load_local locals "retry") ;;
  locals' <-
    (if is_not_None retry then
       if eq_zero retry then raise e
       else
         retry' <- lift (minus_one retry) ;;
         ret (<["retry" := retry']> locals)
     else ret locals) ;;
  retry_wait <- lift (load_global globals "retry_wait") ;;
  sleep retry_wait ;;;
  ret locals'.

(** The [if]/[elif] chain on the status code. *)
Definition check_status (r : response) : M unit :=
  let s := status_code r in
  if s =? 400 then
    log Error "%s: Status code %d" ;;;
    log Error "%s: Headers: %s" ;;;
    log Error "%s: Resp: %s" ;;;
    lift (raise_for_status r)
  else if (s =? 401) || (s =? 403) || (s =? 404) then
    log Error "%s: Status code %d" ;;;
    log Error "%s: Headers: %s" ;;;
    lift (raise_for_status r)
  else if s =? 500 then
    log Error "%s: Status code %d" ;;;
    lift (raise_for_status r)
  else if negb (s =? 200) then
    log Error "%s: Status code %d" ;;;
    log Error "%s: Headers: %s" ;;;
    log Error "%s: Resp: %s" ;;;
    lift (raise_for_status r)
  else ret tt.

(** What follows the [try] statement once no exception is pending. *)
Definition on_response (resp : option response) : M json :=
  match resp with
  | None => raise (UnboundLocalError "resp")
  | Some r => check_status r ;;; lift (resp_json r)
  end.

(** [while True:], with the frame as loop state.  [globals] is the module
    namespace and [locals] the frame the loop runs in; [fuel] bounds the
    number of iterations, and running out of it is [diverge]. *)
Fixpoint request_loop (fuel : nat) (globals locals : gmap string pyobj)
    (method endpoint : string) (header : pyobj) (body : option json) : M json :=
  match fuel with
  | O => diverge
  | S fuel' =>
      step <- try_except
                (resp <- send method endpoint header body ;; ret (inl resp))
                (fun e =>
                   match e with
                   | TimeoutError =>
                       l <- on_transport_failure globals locals e "%s: Timeout - %s" ;;
                       ret (inr l)
                   | ConnectionError =>
                       l <- on_transport_failure globals locals e "%s: Connection error - %s" ;;
                       ret (inr l)
                   | _ => raise e
                   end) ;;
      match step with
      | inl resp => on_response resp
      | inr locals' => request_loop fuel' globals locals' method endpoint header body
      end
  end.

(** [_make_request(self, method, endpoint, header, body=None)]: on entry
    neither [resp] nor [retry] is bound. *)
Definition _make_request (fuel : nat)
    (method endpoint : string) (header : pyobj) (body : option json) : M json :=
  request_loop fuel module_globals ∅ method endpoint header body.

End Dispatcher.

(** ** Strings, containers, calls *)

(** [s.encode('ascii')] *)
Definition ascii_encode (s : string) : res (list Z) :=
  let codes := map (fun c => Z.of_nat (nat_of_ascii c)) (list_ascii_of_string s) in
  if forallb (fun c => c <? 128) codes then Ok codes else Raise UnicodeEncodeError.

(** [needle in hay] on two strings *)
Fixpoint contains (needle hay : string) : bool :=
  String.prefix needle hay ||
  match hay with
  | EmptyString => false
  | String _ rest => contains needle rest
  end.

Fixpoint assoc (key : string) (members : list (string * json)) : option json :=
  match members with
  | [] => None
  | (k, v) :: rest => if String.eqb k key then Some v else assoc key rest
  end.

(** [container[key]] for a string key *)
Definition getitem (container : json) (key : string) : res json :=
  match container with
  | JObj members =>
      match assoc key members with
      | Some v => Ok v
      | None => Raise (KeyError key)
      end
  | JList _ => Raise (TypeError "list indices must be integers or slices, not str")
  | JStr _ => Raise (TypeError "string indices must be integers")
  | _ => Raise (TypeError "object is not subscriptable")
  end.

(** [key in container] for a string key *)
Definition has_key (container : json) (key : string) : res bool :=
  match container with
  | JObj members => Ok (bool_decide (is_Some (assoc key members)))
  | JList items =>
      Ok (existsb (fun x => match x with JStr s => String.eqb s key | _ => false end) items)
  | JStr s => Ok (contains key s)
  | _ => Raise (TypeError "argument is not iterable")
  end.

(** [d[key]] on the dict a function builds itself *)
Definition dict_get (d : gmap string json) (key : string) : res json :=
  match d !! key with
  | Some v => Ok v
  | None => Raise (KeyError key)
  end.

(** The items a [for] loop or [map] draws from a value. *)
Definition iterate (data : json) : res (list json) :=
  match data with
  | JList items => Ok items
  | JObj members => Ok (map (fun kv => JStr (fst kv)) members)
  | JStr s => Ok (map (fun c => JStr (String c EmptyString)) (list_ascii_of_string s))
  | _ => Raise (TypeError "object is not iterable")
  end.

(** [data == []] *)
Definition is_empty_list (data : json) : bool :=
  match data with
  | JList [] => true
  | _ => false
  end.

(** A call [self.f(a1, ..., an)] of a method declared [def f(self, x)]. *)
Definition call_method1 {A B} (name : string) (f : A -> res B) (args : list A) : res B :=
  match args with
  | [a] => f a
  | _ => Raise (TypeError (name +:+ "() takes 2 positional arguments"))
  end.

(** [list(map(f, items))]: the first exception ends the traversal. *)
Fixpoint map_res {A B} (f : A -> res B) (items : list A) : res (list B) :=
  match items with
  | [] => Ok []
  | x :: rest =>
      match f x with
      | Ok y =>
          match map_res f rest with
          | Ok ys => Ok (y :: ys)
          | Raise e => Raise e
          end
      | Raise e => Raise e
      end
  end.

(** [json.dumps(o)] *)
Definition dumps {env : Collaborators} (o : pyobj) : res string :=
  match o with
  | PyData j => Ok (json_dumps j)
  | _ => Raise (TypeError "Object is not JSON serializable")
  end.

(** [o.strptime] *)
Definition getattr_strptime {env : Collaborators} (o : pyobj) : res (json -> string -> res Z) :=
  match o with
  | PyClass c =>
      if String.eqb c "datetime.datetime" then Ok strptime
      else Raise (AttributeError "strptime")
  | _ => Raise (AttributeError "strptime")
  end.

(** The argument of [get_orders]: a dict with the optional keys [status]
    (a list of strings) and [product_id]. *)
Record orders_query := {
  status : option (list string);
  product_id : option string
}.

(** ** The client *)

Section Gdax.
Context {env : Collaborators} (self : client).

(** The class attribute [ID = GDAX]. *)
Definition ID : json := GDAX.

Definition _generate_signature (endpoint method body : string) : M json :=
  timestamp <- time_time ;;
  let message := timestamp +:+ method +:+ endpoint +:+ body in
  hmac_key <- lift (b64decode (key_secret self)) ;;
  encoded <- lift (ascii_encode message) ;;
  let signature := hmac_sha256 hmac_key encoded in
  let signature_b64 := b64encode signature in
  ret (JObj [ ("CB-ACCESS-KEY", JStr (key_id self));
              ("CB-ACCESS-SIGN", JStr signature_b64);
              ("CB-ACCESS-TIMESTAMP", JStr timestamp);
              ("CB-ACCESS-PASSPHRASE", JStr (key_passphrase self));
              ("Content-Type", JStr "Application/JSON") ]).

Definition _trade_normalization (trade : json) : res (gmap string json) :=
  (timestamp <-? getitem trade "created_at";
   pair <-? getitem trade "product_id";
   side <-? getitem trade "side";
   amount <-? getitem trade "size";
   price <-? getitem trade "price";
   let trade_data : gmap string json :=
     list_to_map [ ("timestamp", timestamp); ("pair", pair); ("feed", ID);
                   ("side", side); ("amount", amount); ("price", price) ] in
   is_fill <-? has_key trade "order_id";
   if is_fill : bool then
     id <-? getitem trade "order_id";
     Ok (<["id" := id]> trade_data)
   else
     id <-? getitem trade "id";
     let trade_data := <["id" := id]> trade_data in
     type <-? getitem trade "type";
     let trade_data := <["type" := type]> trade_data in
     v <-? dict_get trade_data "fill_fees";
     let trade_data := <["fill_fees" := v]> trade_data in
     v <-? dict_get trade_data "filled_size";
     let trade_data := <["filled_size" := v]> trade_data in
     v <-? dict_get trade_data "executed_value";
     let trade_data := <["executed_value" := v]> trade_data in
     v <-? dict_get trade_data "status";
     let trade_data := <["status" := v]> trade_data in
     v <-? dict_get trade_data "settled";
     let trade_data := <["settled" := v]> trade_data in
     Ok trade_data)%res.

(** The [for entry in data] loop of [_get_fills], with [data_in_range] as
    accumulator.  [datetime] is not a local name of [_get_fills]. *)
Fixpoint select_in_range (start_time end_time : Z) (entries data_in_range : list json)
  : res (list json) :=
  match entries with
  | [] => Ok data_in_range
  | entry :: rest =>
      (datetime <-? load_global module_globals "datetime";
       parse <-? getattr_strptime datetime;
       created_at <-? getitem entry "created_at";
       entry_time <-? parse created_at "%Y-%m-%dT%H:%M:%S.%fZ";
       if (start_time <=? entry_time) && (entry_time <=? end_time)
       then select_in_range start_time end_time rest (data_in_range ++ [entry])
       else select_in_range start_time end_time rest data_in_range)%res
  end.

(** Lines 106-118 of [_get_fills]: the [if data == []] / [elif] statement. *)
Definition filter_by_date (start_date end_date : option json) (data : json) : M json :=
  if is_empty_list data then
    log Warning "%s: No data" ;;; ret data
  else
    match start_date, end_date with
    | Some s, Some e =>
        start_time <- lift (pd_Timestamp s) ;;
        end_time <- lift (pd_Timestamp e) ;;
        entries <- lift (iterate data) ;;
        data_in_range <- lift (select_in_range start_time end_time entries []) ;;
        ret (JList data_in_range)
    | _, _ => ret data
    end.

(** [list(map(lambda x: self._trade_normalization(symbol, x), data))] *)
Definition normalize_fills (symbol : json) (data : json) : res (list (gmap string json)) :=
  (items <-? iterate data;
   map_res (fun x => call_method1 "_trade_normalization" _trade_normalization [symbol; x])
           items)%res.

(** Lines 98-101 of [_get_fills]: [symbol], rebound to its exchange name
    when it is given, and the endpoint. *)
Definition fills_endpoint (symbol : option string) : res (json * string) :=
  match symbol with
  | Some s =>
      (s' <-? pair_std_to_exchange s ID;
       Ok (JStr s', "/fills" +:+ "?product_id=" +:+ s'))%res
  | None => Ok (JNull, "/fills")
  end.

(** Lines 98-104 of [_get_fills]: the endpoint, the signature and the
    request. *)
Definition fetch_fills (fuel : nat) (symbol : option string) : M (json * json) :=
  target <- lift (fills_endpoint symbol) ;;
  let '(symbol, endpoint) := target in
  header <- _generate_signature endpoint "GET" "" ;;
  data <- _make_request self fuel "GET" endpoint (PyData header) None ;;
  ret (symbol, data).

Definition _get_fills (fuel : nat) (symbol : option string) (retry retry_wait : pyobj)
    (start_date end_date : option json) : M (list (gmap string json)) :=
  fetched <- fetch_fills fuel symbol ;;
  let '(symbol, data) := fetched in
  data <- filter_by_date start_date end_date data ;;
  lift (normalize_fills symbol data).

(** Lines 128-141 of [_get_orders]: the endpoint string. *)
Definition add_status (endpoint status : string) : string :=
  if negb (contains "status" endpoint)
  then endpoint +:+ "?status=" +:+ status
  else endpoint +:+ "&status" +:+ status.

Definition orders_endpoint (body : orders_query) : res string :=
  let endpoint := "/orders" in
  let endpoint :=
    match status body with
    | Some statuses => fold_left add_status statuses endpoint
    | None => endpoint
    end in
  match product_id body with
  | Some p =>
      (product_id <-? pair_std_to_exchange p ID;
       if contains "status" endpoint
       then Ok (endpoint +:+ "?product_id=" +:+ product_id)
       else Ok (endpoint +:+ "&product_id=" +:+ product_id))%res
  | None => Ok endpoint
  end.

Definition _get_orders (fuel : nat) (body : orders_query) : M (list (gmap string json)) :=
  endpoint <- lift (orders_endpoint body) ;;
  header <- _generate_signature endpoint "GET" "" ;;
  data <- _make_request self fuel "GET" endpoint (PyData header) None ;;
  items <- lift (iterate data) ;;
  lift (map_res (fun x => call_method1 "_trade_normalization" _trade_normalization [x]) items).

Definition _get_order (fuel : nat) (order_id : string) : M json :=
  let endpoint := "/orders/" +:+ order_id in
  header <- _generate_signature endpoint "GET" "" ;;
  _make_request self fuel "GET" endpoint (PyData header) None.

Definition _post_order (fuel : nat) (body : json) (retry retry_wait : pyobj) : M json :=
  let endpoint := "/orders" in
  header <- _generate_signature endpoint "POST" (json_dumps body) ;;
  _make_request self fuel "POST" endpoint (PyData header) (Some body).

(** [body] and [headers] are assigned nowhere in [_delete_order]: both are
    read from the module namespace. *)
Definition _delete_order (fuel : nat) (order_id : option string) : M unit :=
  let endpoint := "/orders" in
  let endpoint :=
    match order_id with
    | Some o => endpoint +:+ "/" +:+ o
    | None => endpoint
    end in
  body <- lift (load_global module_globals "body") ;;
  dumped <- lift (dumps body) ;;
  header <- _generate_signature endpoint "DELETE" dumped ;;
  headers <- lift (load_global module_globals "headers") ;;
  _make_request self fuel "DELETE" endpoint headers None ;;;
  ret tt.

(** *** The public operations *)

Definition fills (fuel : nat) (symbol : option string) (start end_ : option json)
    (retry retry_wait : pyobj) : M (list (gmap string json)) :=
  _get_fills fuel symbol retry retry_wait start end_.

Fixpoint execute_trades (fuel : nat) (trades_to_make : list json)
  : M (list (gmap string json)) :=
  match trades_to_make with
  | [] => ret []
  | trade :: rest =>
      posted <- _post_order fuel trade PyNone (PyInt 0) ;;
      response <- lift (_trade_normalization posted) ;;
      responses <- execute_trades fuel rest ;;
      ret (response :: responses)
  end.

Definition cancel_orders (fuel : nat) (order_id : option string) : M unit :=
  _delete_order fuel order_id.

Definition get_orders (fuel : nat) (body : orders_query) : M (list (gmap string json)) :=
  _get_orders fuel body.

Definition get_order (fuel : nat) (order_id : string) : M (gmap string json) :=
  posted <- _get_order fuel order_id ;;
  lift (_trade_normalization posted).

End Gdax.

(** ** A reference environment

    Executable versions of the library functions the signer calls, used to
    run the client on concrete inputs: RFC 4648 base64, FIPS 180-4 SHA-256
    and RFC 2104 HMAC over bytes held as [Z] in [0, 256). *)

Module Base64.

(** The character of a 6-bit value. *)
Definition digit (v : Z) : ascii :=
  ascii_of_nat (Z.to_nat
    (if v <? 26 then 65 + v
     else if v <? 52 then 97 + (v - 26)
     else if v <? 62 then 48 + (v - 52)
     else if v =? 62 then 43 else 47)).

Definition value (c : ascii) : option Z :=
  let n := Z.of_nat (nat_of_ascii c) in
  if (65 <=? n) && (n <=? 90) then Some (n - 65)
  else if (97 <=? n) && (n <=? 122) then Some (n - 97 + 26)
  else if (48 <=? n) && (n <=? 57) then Some (n - 48 + 52)
  else if n =? 43 then Some 62
  else if n =? 47 then Some 63
  else None.

Definition pad : ascii := ascii_of_nat 61.

Fixpoint encode_chars (fuel : nat) (bytes : list Z) : list ascii :=
  match fuel with
  | O => []
  | S fuel' =>
      match bytes with
      | [] => []
      | [a] =>
          [digit (Z.shiftr a 2); digit (Z.shiftl (Z.land a 3) 4); pad; pad]
      | [a; b] =>
          [digit (Z.shiftr a 2);
           digit (Z.lor (Z.shiftl (Z.land a 3) 4) (Z.shiftr b 4));
           digit (Z.shiftl (Z.land b 15) 2); pad]
      | a :: b :: c :: rest =>
          digit (Z.shiftr a 2)
          :: digit (Z.lor (Z.shiftl (Z.land a 3) 4) (Z.shiftr b 4))
          :: digit (Z.lor (Z.shiftl (Z.land b 15) 2) (Z.shiftr c 6))
          :: digit (Z.land c 63)
          :: encode_chars fuel' rest
      end
  end.

Definition encode (bytes : list Z) : string :=
  string_of_list_ascii (encode_chars (S (length bytes)) bytes).

Definition quad (a b c d : Z) : list Z :=
  let n := Z.lor (Z.lor (Z.shiftl a 18) (Z.shiftl b 12)) (Z.lor (Z.shiftl c 6) d) in
  [Z.land (Z.shiftr n 16) 255; Z.land (Z.shiftr n 8) 255; Z.land n 255].

(** Canonical encodings only: groups of four characters, padding in the
    last group.  (Python's decoder also discards characters outside the
    alphabet; such inputs are rejected here.) *)
Fixpoint decode_chars (fuel : nat) (cs : list ascii) : res (list Z) :=
  match fuel with
  | O => Raise Base64Error
  | S fuel' =>
      match cs with
      | [] => Ok []
      | [c1; c2; c3; c4] =>
          match value c1, value c2, value c3, value c4 with
          | Some a, Some b, Some c, Some d => Ok (quad a b c d)
          | Some a, Some b, Some c, None =>
              if Ascii.eqb c4 pad then Ok (firstn 2 (quad a b c 0))
              else Raise Base64Error
          | Some a, Some b, None, None =>
              if Ascii.eqb c3 pad && Ascii.eqb c4 pad then Ok (firstn 1 (quad a b 0 0))
              else Raise Base64Error
          | _, _, _, _ => Raise Base64Error
          end
      | c1 :: c2 :: c3 :: c4 :: rest =>
          match value c1, value c2, value c3, value c4 with
          | Some a, Some b, Some c, Some d =>
              match decode_chars fuel' rest with
              | Ok bytes => Ok (quad a b c d ++ bytes)
              | Raise e => Raise e
              end
          | _, _, _, _ => Raise Base64Error
          end
      | _ => Raise Base64Error
      end
  end.

Definition decode (s : string) : res (list Z) :=
  decode_chars (S (String.length s)) (list_ascii_of_string s).

End Base64.

Module SHA256.

Definition word (x : Z) : Z := x mod 2 ^ 32.
Definition add (x y : Z) : Z := word (x + y).
Definition rotr (n x : Z) : Z := Z.lor (Z.shiftr x n) (word (Z.shiftl x (32 - n))).
Definition ch (x y z : Z) : Z :=
  Z.lxor (Z.land x y) (Z.land (Z.lxor x (2 ^ 32 - 1)) z).
Definition maj (x y z : Z) : Z :=
  Z.lxor (Z.lxor (Z.land x y) (Z.land x z)) (Z.land y z).
Definition bsig0 (x : Z) : Z := Z.lxor (Z.lxor (rotr 2 x) (rotr 13 x)) (rotr 22 x).
Definition bsig1 (x : Z) : Z := Z.lxor (Z.lxor (rotr 6 x) (rotr 11 x)) (rotr 25 x).
Definition ssig0 (x : Z) : Z := Z.lxor (Z.lxor (rotr 7 x) (rotr 18 x)) (Z.shiftr x 3).
Definition ssig1 (x : Z) : Z := Z.lxor (Z.lxor (rotr 17 x) (rotr 19 x)) (Z.shiftr x 10).

(** The round constants are the leading 32 fraction bits of the cube
    roots of the first 64 primes, the initial state those of the square
    roots of the first 8. *)
Definition is_prime (n : Z) : bool :=
  (2 <=? n) &&
  forallb (fun d => negb (n mod d =? 0) || (n <=? d))
          (map Z.of_nat (seq 2 (Z.to_nat (Z.sqrt n)))).

Definition primes : list Z :=
  Eval vm_compute in filter (fun n => is_prime n) (map Z.of_nat (seq 2 310)).

Fixpoint cube_root_search (bits : nat) (n lo : Z) : Z :=
  match bits with
  | O => lo
  | S bits' =>
      let candidate := lo + 2 ^ Z.of_nat bits' in
      if candidate * candidate * candidate <=? n
      then cube_root_search bits' n candidate
      else cube_root_search bits' n lo
  end.

Definition K : list Z :=
  Eval vm_compute in
    map (fun p => word (cube_root_search 40 (p * 2 ^ 96) 0)) (firstn 64 primes).

Definition H0 : list Z :=
  Eval vm_compute in map (fun p => word (Z.sqrt (p * 2 ^ 64))) (firstn 8 primes).

Definition be_bytes (count : nat) (x : Z) : list Z :=
  map (fun i => Z.land (Z.shiftr x (8 * Z.of_nat i)) 255) (rev (seq 0 count)).

Definition padded (message : list Z) : list Z :=
  let len := Z.of_nat (length message) in
  let zeros := Z.to_nat ((55 - len) mod 64) in
  message ++ [128] ++ repeat 0 zeros ++ be_bytes 8 (8 * len).

Fixpoint be_words (fuel : nat) (bytes : list Z) : list Z :=
  match fuel, bytes with
  | S fuel', a :: b :: c :: d :: rest =>
      (Z.shiftl a 24 + Z.shiftl b 16 + Z.shiftl c 8 + d) :: be_words fuel' rest
  | _, _ => []
  end.

Definition at_ (ws : list Z) (i : nat) : Z := nth i ws 0.

(** Extend the 16 words of a block to the 64 of the message schedule. *)
Fixpoint schedule (more : nat) (ws : list Z) : list Z :=
  match more with
  | O => ws
  | S more' =>
      let t := length ws in
      schedule more'
        (ws ++ [add (add (ssig1 (at_ ws (t - 2))) (at_ ws (t - 7)))
                    (add (ssig0 (at_ ws (t - 15))) (at_ ws (t - 16)))])
  end.

Definition round (st : list Z) (kw : Z * Z) : list Z :=
  match st with
  | [a; b; c; d; e; f; g; h] =>
      let t1 := add (add (add h (bsig1 e)) (add (ch e f g) (fst kw))) (snd kw) in
      let t2 := add (bsig0 a) (maj a b c) in
      [add t1 t2; a; b; c; add d t1; e; f; g]
  | _ => st
  end.

Definition compress (st block : list Z) : list Z :=
  let ws := schedule 48 block in
  let st' := fold_left round (combine K ws) st in
  map (fun p => add (fst p) (snd p)) (combine st st').

Fixpoint blocks (fuel : nat) (ws : list Z) (st : list Z) : list Z :=
  match fuel, ws with
  | S fuel', _ :: _ => blocks fuel' (skipn 16 ws) (compress st (firstn 16 ws))
  | _, _ => st
  end.

Definition digest (message : list Z) : list Z :=
  let bytes := padded message in
  let ws := be_words (length bytes) bytes in
  flat_map (be_bytes 4) (blocks (length ws) ws H0).

End SHA256.

Module HMAC.

Definition block_size : nat := 64.

Definition block_key (key : list Z) : list Z :=
  let k := if (block_size <? length key)%nat then SHA256.digest key else key in
  k ++ repeat 0 (block_size - length k)%nat.

Definition sha256 (key message : list Z) : list Z :=
  let k := block_key key in
  let inner := SHA256.digest (map (Z.lxor 54) k ++ message) in
  SHA256.digest (map (Z.lxor 92) k ++ inner).

End HMAC.

Module Reference.

Definition quote : string := String (ascii_of_nat 34) EmptyString.

(** [json.dumps] with its default separators, for strings that need no
    escaping. *)
Fixpoint dumps_json (j : json) : string :=
  match j with
  | JNull => "null"
  | JBool b => if b then "true" else "false"
  | JNum n => pretty n
  | JStr s => quote +:+ s +:+ quote
  | JList items =>
      "[" +:+
      (fix go (first : bool) (l : list json) : string :=
         match l with
         | [] => EmptyString
         | x :: rest =>
             (if first then EmptyString else ", ") +:+ dumps_json x +:+ go false rest
         end) true items
      +:+ "]"
  | JObj members =>
      "{" +:+
      (fix go (first : bool) (l : list (string * json)) : string :=
         match l with
         | [] => EmptyString
         | (k, v) :: rest =>
             (if first then EmptyString else ", ")
             +:+ quote +:+ k +:+ quote +:+ ": " +:+ dumps_json v +:+ go false rest
         end) true members
      +:+ "}"
  end.

(** GDAX names its products as the framework does. *)
Definition products : list string :=
  ["BTC-USD"; "ETH-USD"; "LTC-USD"; "BCH-USD"; "ETH-BTC"; "LTC-BTC"].

Definition translate (pair : string) (exchange : json) : res string :=
  if existsb (String.eqb pair) products then Ok pair else Raise (KeyError pair).

(** A date as the number its digits spell, scaled to twenty digits:
    year, month, day, hour, minute, second, microsecond. *)
Definition digit_value (c : ascii) : option Z :=
  let n := Z.of_nat (nat_of_ascii c) in
  if (48 <=? n) && (n <=? 57) then Some (n - 48) else None.

Definition timeline (s : string) : res Z :=
  let digits := omap digit_value (list_ascii_of_string s) in
  match digits with
  | [] => Raise (ValueError "could not convert string to Timestamp")
  | _ =>
      let padded := firstn 20 (digits ++ repeat 0 20) in
      Ok (fold_left (fun acc d => 10 * acc + d) padded 0)
  end.

Definition to_time (d : json) : res Z :=
  match d with
  | JStr s => timeline s
  | _ => Raise (TypeError "cannot convert input to Timestamp")
  end.

Definition parse_time (d : json) (fmt : string) : res Z :=
  match d with
  | JStr s =>
      if String.eqb (String.substring (String.length s - 1) 1 s) "Z"
      then timeline s
      else Raise (ValueError "time data does not match format")
  | _ => Raise (TypeError "strptime() argument 1 must be str")
  end.

#[export] Instance env : Collaborators := {|
  GDAX := JStr "GDAX";
  pair_std_to_exchange := translate;
  json_dumps := dumps_json;
  pd_Timestamp := to_time;
  strptime := parse_time;
  b64decode := Base64.decode;
  b64encode := Base64.encode;
  hmac_sha256 := HMAC.sha256
|}.

End Reference.

(** ** Observations on a run *)

(** The arguments of the [sleep] calls of a trace, in order. *)
Definition sleeps (t : list event) : list pyobj :=
  omap (fun ev => match ev with EvSleep s => Some s | _ => None end) t.

(** The exceptions the two [except] clauses of the dispatcher catch. *)
Definition transport_failure (e : exn) : bool :=
  match e with
  | TimeoutError | ConnectionError => true
  | _ => false
  end.

Definition warning_of (e : exn) : string :=
  match e with
  | TimeoutError => "%s: Timeout - %s"
  | _ => "%s: Connection error - %s"
  end.

(** The methods for which the dispatcher has a branch. *)
Definition dispatched (method : string) : bool :=
  String.eqb method "GET" || String.eqb method "POST" || String.eqb method "DELETE".

(** The HTTP call the dispatcher makes for a request. *)
Definition request_event (self : client) (method endpoint : string)
    (header : pyobj) (body : option json) : event :=
  EvRequest method (base_url self +:+ endpoint) header
            (if String.eqb method "POST" then body else None).

(** The world once one more HTTP call has been made. *)
Definition sent (ev : event) (w : world) : world :=
  {| transport := transport w; clock := clock w;
     attempts := S (attempts w); clock_reads := clock_reads w;
     trace := trace w ++ [ev] |}.

(** The world once events have been appended to the trace. *)
Definition logged (evs : list event) (w : world) : world :=
  {| transport := transport w; clock := clock w;
     attempts := attempts w; clock_reads := clock_reads w;
     trace := trace w ++ evs |}.

(** The world once the clock has been read. *)
Definition ticked (w : world) : world :=
  {| transport := transport w; clock := clock w;
     attempts := attempts w; clock_reads := S (clock_reads w);
     trace := trace w |}.

(** The world [_get_fills] continues in once the fetched data went through
    the [if data == []] statement. *)
Definition after_no_data_check (data : json) (w : world) : world :=
  if is_empty_list data then logged [EvLog Warning "%s: No data"] w else w.

(** What the loop over [body['status']] appends for the statuses after the
    first. *)
Definition later_statuses (rest : list string) : string :=
  fold_right (fun st acc => "&status" +:+ st +:+ acc) EmptyString rest.

(** ** The signature as the specification words it

    Concatenate timestamp, method, endpoint and body with no separator,
    compute HMAC-SHA256 over this byte string under the base64-decoded
    secret, base64-encode the digest, and package it with the raw key id,
    the passphrase, the timestamp and a fixed content type (under the
    header names the exchange fixes). *)

Definition bytes_of (s : string) : list Z :=
  map (fun c => Z.of_nat (nat_of_ascii c)) (list_ascii_of_string s).

Definition spec_signature {env : Collaborators}
    (decoded_secret : list Z) (timestamp method endpoint body : string) : string :=
  b64encode
    (hmac_sha256 decoded_secret
       (bytes_of timestamp ++ bytes_of method ++ bytes_of endpoint ++ bytes_of body)).

Definition spec_headers {env : Collaborators} (self : client)
    (decoded_secret : list Z) (timestamp method endpoint body : string)
  : gmap string json :=
  {[ "CB-ACCESS-KEY" := JStr (key_id self);
     "CB-ACCESS-PASSPHRASE" := JStr (key_passphrase self);
     "CB-ACCESS-TIMESTAMP" := JStr timestamp;
     "Content-Type" := JStr "Application/JSON";
     "CB-ACCESS-SIGN" := JStr (spec_signature decoded_secret timestamp method endpoint body) ]}.

(** The dict a JSON object denotes. *)
Definition dict_of (j : json) : gmap string json :=
  match j with
  | JObj members => list_to_map members
  | _ => ∅
  end.

(** ** Sample inputs *)

Module Sample.

Definition account : client :=
  {| key_id := "k"; key_secret := "c2VjcmV0"; key_passphrase := "p"; sandbox := false |}.

(** The record shown in the docstring of [fills]. *)
Definition fill : json :=
  JObj [ ("trade_id", JNum 74); ("product_id", JStr "BTC-USD");
         ("price", JStr "10.00"); ("size", JStr "0.01");
         ("order_id", JStr "d50ec984-77a8-460a-b958-66f114b0de9b");
         ("created_at", JStr "2014-11-07T22:19:28.578544Z");
         ("liquidity", JStr "T"); ("fee", JStr "0.00025");
         ("settled", JBool true); ("side", JStr "buy") ].

(** An order as the exchange lists it. *)
Definition order : json :=
  JObj [ ("id", JStr "68e6a28f-ae28-4788-8d4f-5ab4e5e5ae08");
         ("price", JStr "0.100"); ("size", JStr "0.01");
         ("product_id", JStr "BTC-USD"); ("side", JStr "buy");
         ("type", JStr "limit"); ("created_at", JStr "2016-12-08T20:02:28.538110Z");
         ("fill_fees", JStr "0.0000000000000000"); ("filled_size", JStr "0.00000000");
         ("executed_value", JStr "0.0000000000000000");
         ("status", JStr "open"); ("settled", JBool false) ].

(** The order shown in the docstring of [execute_trades]. *)
Definition new_order : json :=
  JObj [ ("size", JStr "0.01"); ("price", JStr "0.100");
         ("side", JStr "buy"); ("product_id", JStr "BTC-USD") ].

Definition reply (code : Z) (body : json) : response :=
  {| status_code := code; headers := []; text := EmptyString; parsed := Some body |}.

Definition world_of (net : nat -> net_outcome) : world :=
  {| transport := net; clock := fun _ => "1500000000.25";
     attempts := 0; clock_reads := 0; trace := [] |}.

(** The exchange cannot be reached. *)
Definition offline : world := world_of (fun _ => Fails ConnectionError).

(** The exchange answers every request with the given status and body. *)
Definition answering (code : Z) (body : json) : world :=
  world_of (fun _ => Responds (reply code body)).

Definition both_filters : orders_query :=
  {| status := Some ["open"; "pending"]; product_id := Some "BTC-USD" |}.

(** The headers the signer returns for a request at the sample clock. *)
Definition signed (endpoint method body : string) : json :=
  match fst (_generate_signature (env := Reference.env) account endpoint method body
               (world_of (fun _ => Fails ConnectionError))) with
  | Some (Ok header) => header
  | _ => JNull
  end.

(** A name environment in which the dispatcher's [retry] and
    [retry_wait] resolve. *)
Definition globals_with_wait (wait : pyobj) : gmap string pyobj :=
  <["retry_wait" := wait]> (module_globals (env := Reference.env)).

Definition frame_with_retry (retry : pyobj) : gmap string pyobj :=
  {["retry" := retry]}.

End Sample.

(** ** Further observations on a run *)

Definition is_log (ev : event) : bool :=
  match ev with EvLog _ _ => true | _ => false end.

Definition is_request (ev : event) : bool :=
  match ev with EvRequest _ _ _ _ => true | _ => false end.

(** The number of HTTP calls in a trace. *)
Definition requests_in (t : list event) : nat := length (List.filter is_request t).

(** The keys [_trade_normalization] reads from every record, in the order
    in which the dict display reads them. *)
Definition base_keys : list string :=
  ["created_at"; "product_id"; "side"; "size"; "price"].

(** ** Further sample inputs *)

Module Scenario.

(** A clock that moves between two readings. *)
Definition ticking (net : nat -> net_outcome) : world :=
  {| transport := net;
     clock := fun n => if (n =? 0)%nat then "1500000000.25" else "1500000001.5";
     attempts := 0; clock_reads := 0; trace := [] |}.

(** An account whose secret is no base64. *)
Definition unusable_account : client :=
  {| key_id := "k"; key_secret := "a"; key_passphrase := "p"; sandbox := true |}.

(** An order id with a character outside ASCII. *)
Definition odd_id : string := String (ascii_of_nat 233) "9f2".

(** The exchange answers with something the HTTP library refuses. *)
Definition refusing : world := Sample.world_of (fun _ => Fails (ValueError "Invalid URL")).

(** A fill without its [side]. *)
Definition sideless_fill : list (string * json) :=
  [ ("trade_id", JNum 74); ("product_id", JStr "BTC-USD"); ("price", JStr "10.00");
    ("size", JStr "0.01"); ("order_id", JStr "d50ec984-77a8-460a-b958-66f114b0de9b");
    ("created_at", JStr "2014-11-07T22:19:28.578544Z") ].

(** The record [_trade_normalization] makes of [Sample.fill]. *)
Definition normalized_fill : gmap string json :=
  {[ "timestamp" := JStr "2014-11-07T22:19:28.578544Z"; "pair" := JStr "BTC-USD";
     "feed" := JStr "GDAX"; "side" := JStr "buy"; "amount" := JStr "0.01";
     "price" := JStr "10.00"; "id" := JStr "d50ec984-77a8-460a-b958-66f114b0de9b" ]}.

(** The endpoint [get_orders] builds for [Sample.both_filters]. *)
Definition listing_endpoint : string :=
  "/orders?status=open&statuspending?product_id=BTC-USD".

(** The headers the signer returns at the current reading of a world. *)
Definition signed_in (self : client) (endpoint method body : string) (w : world) : json :=
  match fst (_generate_signature (env := Reference.env) self endpoint method body w) with
  | Some (Ok header) => header
  | _ => JNull
  end.

End Scenario.

(** * Properties *)

(** ** The monad *)

Lemma bind_ok {A B} (m : M A) (k : A -> M B) w a w' :
  m w = (Some (Ok a), w') -> bind m k w = k a w'.
Proof. intros E. unfold bind. now rewrite E. Qed.

Lemma bind_raise {A B} (m : M A) (k : A -> M B) w e w' :
  m w = (Some (Raise e), w') -> bind m k w = (Some (Raise e), w').
Proof. intros E. unfold bind. now rewrite E. Qed.

Lemma bind_lift {A B} (r : res A) (k : A -> M B) w :
  bind (lift r) k w = match r with Ok a => k a w | Raise e => (Some (Raise e), w) end.
Proof. now destruct r. Qed.

Lemma bind_log {B} lvl fmt (k : unit -> M B) w :
  bind (log lvl fmt) k w = k tt (logged [EvLog lvl fmt] w).
Proof. reflexivity. Qed.

Lemma bind_sleep {B} (seconds : Z) (k : unit -> M B) w :
  0 <= seconds ->
  bind (sleep (PyInt seconds)) k w = k tt (logged [EvSleep (PyInt seconds)] w).
Proof.
  intros N. unfold bind, sleep, PyInt.
  destruct (Z.ltb_spec seconds 0); [lia|]. reflexivity.
Qed.

(** Whatever its argument, [sleep] returns or raises at once, and leaves
    at most its own event in the trace. *)
Lemma sleep_outcome seconds w :
  sleep seconds w = (Some (Ok tt), logged [EvSleep seconds] w)
  \/ exists e, sleep seconds w = (Some (Raise e), w).
Proof.
  unfold sleep.
  destruct seconds as [j|?|?|?|]; try (right; eexists; reflexivity).
  destruct j; try (right; eexists; reflexivity); try (left; reflexivity).
  destruct (n <? 0); [right; eexists; reflexivity | left; reflexivity].
Qed.

Lemma logged_logged evs evs' w : logged evs' (logged evs w) = logged (evs ++ evs') w.
Proof. unfold logged. simpl. now rewrite <- app_assoc. Qed.

(** ** Name resolution in the module *)

Section Names.
Context {env : Collaborators}.

Lemma retry_wait_is_no_global : module_globals !! "retry_wait" = None.
Proof. vm_compute. reflexivity. Qed.

Lemma datetime_is_no_global : module_globals !! "datetime" = None.
Proof. vm_compute. reflexivity. Qed.

Lemma body_is_no_global : module_globals !! "body" = None.
Proof. vm_compute. reflexivity. Qed.

Lemma headers_is_no_global : module_globals !! "headers" = None.
Proof. vm_compute. reflexivity. Qed.

(** The class is imported under the name [dt]. *)
Lemma dt_is_the_datetime_class :
  module_globals !! "dt" = Some (PyClass "datetime.datetime").
Proof. vm_compute. reflexivity. Qed.

End Names.

Section DispatcherFacts.
Context {env : Collaborators} (self : client).

Lemma send_dispatched method endpoint header body w :
  dispatched method = true ->
  send self method endpoint header body w =
    match transport w (attempts w) with
    | Responds r =>
        (Some (Ok (Some r)), sent (request_event self method endpoint header body) w)
    | Fails e =>
        (Some (Raise e), sent (request_event self method endpoint header body) w)
    end.
Proof.
  unfold dispatched, send, request_event. intros D.
  destruct (String.eqb method "GET") eqn:G.
  { apply String.eqb_eq in G. subst method. unfold bind, http, sent. simpl.
    destruct (transport w (attempts w)); reflexivity. }
  destruct (String.eqb method "POST") eqn:P.
  { apply String.eqb_eq in P. subst method. unfold bind, http, sent. simpl.
    destruct (transport w (attempts w)); reflexivity. }
  destruct (String.eqb method "DELETE") eqn:Dl; [|discriminate].
  apply String.eqb_eq in Dl. subst method. unfold bind, http, sent. simpl.
  destruct (transport w (attempts w)); reflexivity.
Qed.

(** One iteration that meets a transport failure runs the handler. *)
Lemma request_loop_failure fuel globals locals method endpoint header body w e :
  dispatched method = true ->
  transport w (attempts w) = Fails e ->
  transport_failure e = true ->
  request_loop self (S fuel) globals locals method endpoint header body w =
    match on_transport_failure globals locals e (warning_of e)
            (sent (request_event self method endpoint header body) w) with
    | (Some (Ok locals'), w') =>
        request_loop self fuel globals locals' method endpoint header body w'
    | (Some (Raise x), w') => (Some (Raise x), w')
    | (None, w') => (None, w')
    end.
Proof.
  intros D T K. simpl. unfold bind at 1. unfold try_except.
  unfold bind at 1. rewrite send_dispatched by exact D. rewrite T.
  destruct e; try discriminate K; simpl.
  - unfold bind at 1.
    destruct (on_transport_failure _ _ _ _ _) as [[[l|x]|] w']; reflexivity.
  - unfold bind at 1.
    destruct (on_transport_failure _ _ _ _ _) as [[[l|x]|] w']; reflexivity.
Qed.

(** One iteration that gets a response decides the call. *)
Lemma request_loop_response fuel globals locals method endpoint header body w r :
  dispatched method = true ->
  transport w (attempts w) = Responds r ->
  request_loop self (S fuel) globals locals method endpoint header body w =
    on_response (Some r) (sent (request_event self method endpoint header body) w).
Proof.
  intros D T. simpl. unfold bind at 1. unfold try_except.
  unfold bind at 1. rewrite send_dispatched by exact D. rewrite T.
  reflexivity.
Qed.

Lemma handler_unbound globals locals e fmt w :
  locals !! "retry" = None ->
  on_transport_failure globals locals e fmt w =
    (Some (Raise (UnboundLocalError "retry")), logged [EvLog Warning fmt] w).
Proof.
  intros U. unfold on_transport_failure. rewrite bind_log, bind_lift.
  unfold load_local. now rewrite U.
Qed.

(** The handler in a frame where [retry] holds [None] and [retry_wait]
    resolves to a wait [time.sleep] accepts: the guard skips the [raise],
    the handler sleeps and the loop goes on. *)
Lemma handler_no_budget globals locals e fmt w (seconds : Z) :
  locals !! "retry" = Some PyNone ->
  globals !! "retry_wait" = Some (PyInt seconds) ->
  0 <= seconds ->
  on_transport_failure globals locals e fmt w =
    (Some (Ok locals), logged [EvLog Warning fmt; EvSleep (PyInt seconds)] w).
Proof.
  intros R W N. unfold on_transport_failure. rewrite bind_log, bind_lift.
  unfold load_local. rewrite R. simpl.
  unfold bind at 1. unfold ret at 1. rewrite bind_lift.
  unfold load_global. rewrite W.
  rewrite bind_sleep by exact N. rewrite logged_logged. reflexivity.
Qed.

Lemma handler_exhausted globals locals e fmt w :
  locals !! "retry" = Some (PyInt 0) ->
  on_transport_failure globals locals e fmt w =
    (Some (Raise e), logged [EvLog Warning fmt] w).
Proof.
  intros R. unfold on_transport_failure. rewrite bind_log, bind_lift.
  unfold load_local. rewrite R. reflexivity.
Qed.

Lemma handler_budget globals locals e fmt w (seconds : Z) n :
  locals !! "retry" = Some (PyInt n) ->
  n <> 0 ->
  globals !! "retry_wait" = Some (PyInt seconds) ->
  0 <= seconds ->
  on_transport_failure globals locals e fmt w =
    (Some (Ok (<["retry" := PyInt (n - 1)]> locals)),
     logged [EvLog Warning fmt; EvSleep (PyInt seconds)] w).
Proof.
  intros R N W P. unfold on_transport_failure. rewrite bind_log, bind_lift.
  unfold load_local. rewrite R. simpl.
  apply Z.eqb_neq in N. rewrite N.
  unfold bind at 1. rewrite bind_lift. simpl. unfold ret at 1.
  rewrite bind_lift. unfold load_global. rewrite W.
  rewrite bind_sleep by exact P. rewrite logged_logged. reflexivity.
Qed.

(** A wait [time.sleep] refuses ends the handler there: the loop does not
    go on. *)
Lemma handler_refused_wait globals locals e fmt w (seconds : Z) :
  locals !! "retry" = Some PyNone ->
  globals !! "retry_wait" = Some (PyInt seconds) ->
  seconds < 0 ->
  on_transport_failure globals locals e fmt w =
    (Some (Raise (ValueError "sleep length must be non-negative")),
     logged [EvLog Warning fmt] w).
Proof.
  intros R W N. unfold on_transport_failure. rewrite bind_log, bind_lift.
  unfold load_local. rewrite R. simpl.
  unfold bind at 1. unfold ret at 1. rewrite bind_lift.
  unfold load_global. rewrite W.
  unfold bind, sleep, PyInt. destruct (Z.ltb_spec seconds 0); [|lia]. reflexivity.
Qed.

Lemma sleeps_app t t' : sleeps (t ++ t') = sleeps t ++ sleeps t'.
Proof. unfold sleeps. apply omap_app. Qed.

(** The dispatcher as written: the handler reads [retry] before anything
    binds it, so a transport failure ends the call at the first attempt,
    with no sleep, in [UnboundLocalError]. *)
Lemma transport_failure_reads_unbound_retry
    fuel method endpoint header body w e :
  dispatched method = true ->
  transport w (attempts w) = Fails e ->
  transport_failure e = true ->
  _make_request self (S fuel) method endpoint header body w =
    (Some (Raise (UnboundLocalError "retry")),
     logged [EvLog Warning (warning_of e)]
            (sent (request_event self method endpoint header body) w)).
Proof.
  intros D T K. unfold _make_request.
  rewrite (request_loop_failure _ _ _ _ _ _ _ _ e) by assumption.
  rewrite handler_unbound by apply lookup_empty. reflexivity.
Qed.

(** Two steps the inductions over a run of failing attempts share: run the
    iteration of the first failure, and hand the later failures to the
    induction hypothesis, which starts one attempt further on. *)
Ltac first_failure F e T K :=
  destruct (F 0%nat) as (e & T & K); [lia|];
  rewrite Nat.add_0_r in T;
  rewrite (request_loop_failure _ _ _ _ _ _ _ _ e) by assumption.

Ltac later_failures F w1 :=
  let i := fresh "i" in
  let Hi := fresh "Hi" in
  let e := fresh "e" in
  let Te := fresh "Te" in
  let Ke := fresh "Ke" in
  intros i Hi; destruct (F (S i)) as (e & Te & Ke); [lia|];
  exists e; split; [|exact Ke]; subst w1; simpl;
  rewrite <- Nat.add_succ_r; exact Te.

(** The loop in a frame where [retry] holds the budget [N] and
    [retry_wait] resolves to a wait [time.sleep] accepts: [N + 1]
    attempts, [N] sleeps of the wait, then the transport error of the last
    attempt. *)
Lemma budget_bounds_attempts (N : nat) :
  forall fuel globals locals method endpoint header body w (seconds : Z),
    dispatched method = true ->
    locals !! "retry" = Some (PyInt (Z.of_nat N)) ->
    globals !! "retry_wait" = Some (PyInt seconds) ->
    0 <= seconds ->
    (forall i, (i <= N)%nat ->
       exists e, transport w (attempts w + i)%nat = Fails e /\ transport_failure e = true) ->
    (N < fuel)%nat ->
    exists e w',
      request_loop self fuel globals locals method endpoint header body w
        = (Some (Raise e), w')
      /\ transport w (attempts w + N)%nat = Fails e
      /\ attempts w' = (attempts w + N + 1)%nat
      /\ sleeps (trace w') = sleeps (trace w) ++ repeat (PyInt seconds) N.
Proof.
  induction N as [|n IH]; intros fuel globals locals method endpoint header body w seconds
    D R W P F L.
  - destruct fuel as [|fuel]; [lia|].
    first_failure F e T K.
    rewrite handler_exhausted by exact R.
    exists e. eexists. split; [reflexivity|].
    rewrite Nat.add_0_r. split; [exact T|]. simpl. split; [lia|].
    rewrite <- app_assoc, sleeps_app; simpl; rewrite ?app_nil_r; reflexivity.
  - destruct fuel as [|fuel]; [lia|].
    first_failure F e0 T0 K0.
    rewrite (handler_budget _ _ _ _ _ seconds (Z.of_nat (S n))) by (assumption || lia).
    set (w1 := logged _ _).
    destruct (IH fuel globals (<["retry" := PyInt (Z.of_nat (S n) - 1)]> locals)
                method endpoint header body w1 seconds) as (e & w' & E & T & A & S');
      try assumption.
    + rewrite lookup_insert_eq. do 3 f_equal. lia.
    + later_failures F w1.
    + lia.
    + exists e, w'. split; [exact E|]. subst w1. simpl in *.
      split; [now replace (attempts w + S n)%nat with (S (attempts w + n)) by lia|].
      split; [lia|].
      rewrite S', <- app_assoc, sleeps_app, <- app_assoc. reflexivity.
Qed.

Lemma check_status_200 r w :
  status_code r = 200 -> check_status r w = (Some (Ok tt), w).
Proof. intros E. unfold check_status. rewrite E. reflexivity. Qed.

Lemma check_status_http_error r w :
  400 <= status_code r < 600 ->
  exists evs, check_status r w = (Some (Raise (HTTPError (status_code r))), logged evs w)
              /\ sleeps evs = [].
Proof.
  intros B. unfold check_status.
  assert (RS : raise_for_status r = Raise (HTTPError (status_code r))).
  { unfold raise_for_status.
    destruct (Z.leb_spec 400 (status_code r)); [|lia].
    destruct (Z.ltb_spec (status_code r) 600); [|lia]. reflexivity. }
  destruct (status_code r =? 400).
  { eexists. rewrite !bind_log, RS, !logged_logged. split; reflexivity. }
  destruct ((status_code r =? 401) || (status_code r =? 403) || (status_code r =? 404)).
  { eexists. rewrite !bind_log, RS, !logged_logged. split; reflexivity. }
  destruct (status_code r =? 500).
  { eexists. rewrite !bind_log, RS. split; reflexivity. }
  destruct (Z.eqb_spec (status_code r) 200); [lia|]. simpl.
  eexists. rewrite !bind_log, RS, !logged_logged. split; reflexivity.
Qed.

Lemma check_status_other r w :
  status_code r <> 200 ->
  status_code r < 400 \/ 600 <= status_code r ->
  check_status r w =
    (Some (Ok tt),
     logged [EvLog Error "%s: Status code %d"; EvLog Error "%s: Headers: %s";
             EvLog Error "%s: Resp: %s"] w).
Proof.
  intros N B. unfold check_status.
  assert (RS : raise_for_status r = Ok tt).
  { unfold raise_for_status.
    destruct (Z.leb_spec 400 (status_code r)); [|reflexivity].
    destruct (Z.ltb_spec (status_code r) 600); [lia|reflexivity]. }
  destruct (Z.eqb_spec (status_code r) 400); [lia|].
  destruct (Z.eqb_spec (status_code r) 401); [lia|].
  destruct (Z.eqb_spec (status_code r) 403); [lia|].
  destruct (Z.eqb_spec (status_code r) 404); [lia|].
  destruct (Z.eqb_spec (status_code r) 500); [lia|].
  destruct (Z.eqb_spec (status_code r) 200); [lia|]. simpl.
  rewrite !bind_log, RS, !logged_logged. reflexivity.
Qed.

(** Status 200: the parsed body, after one attempt and with nothing logged. *)
Lemma status_200_returns_body fuel globals locals method endpoint header body w r :
  dispatched method = true ->
  transport w (attempts w) = Responds r ->
  status_code r = 200 ->
  request_loop self (S fuel) globals locals method endpoint header body w =
    (Some (resp_json r), sent (request_event self method endpoint header body) w).
Proof.
  intros D T E. rewrite (request_loop_response _ _ _ _ _ _ _ _ r) by assumption.
  unfold on_response. unfold bind. now rewrite check_status_200.
Qed.

(** A 4xx or 5xx status is fatal whatever the frame holds: one attempt, no
    sleep, [HTTPError]. *)
Lemma http_error_is_fatal fuel globals locals method endpoint header body w r :
  dispatched method = true ->
  transport w (attempts w) = Responds r ->
  400 <= status_code r < 600 ->
  exists w',
    request_loop self (S fuel) globals locals method endpoint header body w =
      (Some (Raise (HTTPError (status_code r))), w')
    /\ attempts w' = S (attempts w)
    /\ sleeps (trace w') = sleeps (trace w).
Proof.
  intros D T B. rewrite (request_loop_response _ _ _ _ _ _ _ _ r) by assumption.
  destruct (check_status_http_error r
              (sent (request_event self method endpoint header body) w) B)
    as (evs & E & Sl).
  eexists. split.
  { unfold on_response. unfold bind. rewrite E. reflexivity. }
  split; [reflexivity|]. simpl.
  rewrite !sleeps_app, Sl. unfold request_event. simpl. now rewrite !app_nil_r.
Qed.

(** C8: a transport failure met with no retry budget should reach the
    caller.  As [_make_request] runs, the call does end at the first
    failed attempt, with no sleep and no second request, but what reaches
    the caller is not the transport failure: the handler reads the name
    [retry], which nothing binds in the frame of [_make_request], and the
    call ends in [UnboundLocalError]. *)
Theorem transport_failure_is_replaced_by_unbound_local
    fuel method endpoint header body w e :
  dispatched method = true ->
  transport w (attempts w) = Fails e ->
  transport_failure e = true ->
  exists w',
    _make_request self (S fuel) method endpoint header body w
      = (Some (Raise (UnboundLocalError "retry")), w')
    /\ UnboundLocalError "retry" <> e
    /\ attempts w' = S (attempts w)
    /\ sleeps (trace w') = sleeps (trace w).
Proof.
  intros D T K.
  rewrite (transport_failure_reads_unbound_retry fuel method endpoint header body w e)
    by assumption.
  eexists. split; [reflexivity|].
  split; [intros <-; discriminate K|].
  split; [reflexivity|]. simpl.
  rewrite <- app_assoc, sleeps_app. unfold request_event. simpl.
  now rewrite app_nil_r.
Qed.

(** C2, at the statuses where the code departs from it: a response whose
    status is neither 200 nor a 4xx/5xx code is logged as an error, but
    [raise_for_status] does not raise for it and the dispatcher returns
    its parsed body, as for a 200. *)
Theorem other_status_returns_body fuel method endpoint header body w r :
  dispatched method = true ->
  transport w (attempts w) = Responds r ->
  status_code r <> 200 ->
  status_code r < 400 \/ 600 <= status_code r ->
  _make_request self (S fuel) method endpoint header body w =
    (Some (resp_json r),
     logged [EvLog Error "%s: Status code %d"; EvLog Error "%s: Headers: %s";
             EvLog Error "%s: Resp: %s"]
            (sent (request_event self method endpoint header body) w)).
Proof.
  intros D T N B. unfold _make_request.
  rewrite (request_loop_response _ _ _ _ _ _ _ _ r) by assumption.
  unfold on_response. unfold bind. now rewrite check_status_other.
Qed.
End DispatcherFacts.

Section SignerFacts.
Context {env : Collaborators} (self : client).

Lemma bytes_of_app s1 s2 : bytes_of (s1 +:+ s2) = bytes_of s1 ++ bytes_of s2.
Proof.
  unfold bytes_of. induction s1 as [|c s1 IH]; simpl; [reflexivity|].
  now rewrite IH.
Qed.

Lemma ascii_encode_bytes s m : ascii_encode s = Ok m -> m = bytes_of s.
Proof.
  unfold ascii_encode, bytes_of.
  destruct (forallb _ _); intros E; now inversion E.
Qed.

(** The signer, run: it reads the clock once and touches nothing else. *)
Lemma generate_signature_run endpoint method body w :
  _generate_signature self endpoint method body w =
    (Some
       (let timestamp := clock w (clock_reads w) in
        hmac_key <-? b64decode (key_secret self);
        encoded <-? ascii_encode (timestamp +:+ method +:+ endpoint +:+ body);
        Ok (JObj [ ("CB-ACCESS-KEY", JStr (key_id self));
                   ("CB-ACCESS-SIGN", JStr (b64encode (hmac_sha256 hmac_key encoded)));
                   ("CB-ACCESS-TIMESTAMP", JStr timestamp);
                   ("CB-ACCESS-PASSPHRASE", JStr (key_passphrase self));
                   ("Content-Type", JStr "Application/JSON") ]))%res,
     ticked w).
Proof.
  unfold _generate_signature, bind, time_time, lift, ret. fold (ticked w).
  cbn beta iota zeta.
  destruct (b64decode (key_secret self)); [|reflexivity]. cbn [res_bind].
  destruct (ascii_encode _); reflexivity.
Qed.

(** The result of the signer depends on the world through the timestamp
    only. *)
Lemma signature_depends_on_timestamp endpoint method body w1 w2 :
  clock w1 (clock_reads w1) = clock w2 (clock_reads w2) ->
  fst (_generate_signature self endpoint method body w1)
  = fst (_generate_signature self endpoint method body w2).
Proof. intros T. rewrite !generate_signature_run. cbn [fst]. now rewrite T. Qed.

(** C7, as amended: for every secret that decodes, method, endpoint and
    body (an ASCII message) and a fixed timestamp, the signer returns the
    header set of the key id, the passphrase, the timestamp, the fixed
    content type and the base64 HMAC-SHA256, under the decoded secret, of
    timestamp, method, endpoint and body concatenated without separator;
    any call at the same timestamp returns the same headers. *)
Theorem signature_matches_specification endpoint method body w key :
  b64decode (key_secret self) = Ok key ->
  is_ok (ascii_encode (clock w (clock_reads w) +:+ method +:+ endpoint +:+ body)) = true ->
  exists header,
    _generate_signature self endpoint method body w = (Some (Ok header), ticked w)
    /\ dict_of header =
       spec_headers self key (clock w (clock_reads w)) method endpoint body
    /\ forall w', clock w' (clock_reads w') = clock w (clock_reads w) ->
         fst (_generate_signature self endpoint method body w') = Some (Ok header).
Proof.
  intros K A.
  destruct (ascii_encode _) as [m|] eqn:E; [|discriminate].
  assert (G : _generate_signature self endpoint method body w
              = (Some (Ok (JObj
                   [ ("CB-ACCESS-KEY", JStr (key_id self));
                     ("CB-ACCESS-SIGN", JStr (b64encode (hmac_sha256 key m)));
                     ("CB-ACCESS-TIMESTAMP", JStr (clock w (clock_reads w)));
                     ("CB-ACCESS-PASSPHRASE", JStr (key_passphrase self));
                     ("Content-Type", JStr "Application/JSON") ])), ticked w)).
  { rewrite generate_signature_run. cbn zeta. now rewrite K, E. }
  eexists. split; [exact G|]. split.
  - apply ascii_encode_bytes in E. subst m.
    unfold dict_of, spec_headers, spec_signature.
    rewrite !bytes_of_app.
    generalize (b64encode (hmac_sha256 key
       (bytes_of (clock w (clock_reads w)) ++
        bytes_of method ++ bytes_of endpoint ++ bytes_of body))) as sg.
    generalize (clock w (clock_reads w)) (key_id self) (key_passphrase self).
    intros ts kid pass sg. vm_compute. reflexivity.
  - intros w' T.
    rewrite (signature_depends_on_timestamp endpoint method body w' w T).
    now rewrite G.
Qed.

End SignerFacts.

Section RecordFacts.
Context {env : Collaborators} (self : client).

(** A record with [order_id] and the five base keys is normalised to the
    seven fill fields. *)
Lemma fill_shaped_is_normalized trade created pair side size price oid :
  getitem trade "created_at" = Ok created ->
  getitem trade "product_id" = Ok pair ->
  getitem trade "side" = Ok side ->
  getitem trade "size" = Ok size ->
  getitem trade "price" = Ok price ->
  getitem trade "order_id" = Ok oid ->
  _trade_normalization trade =
    Ok {[ "timestamp" := created; "pair" := pair; "feed" := ID; "side" := side;
          "amount" := size; "price" := price; "id" := oid ]}.
Proof.
  intros C P S Z' R O. unfold _trade_normalization.
  rewrite C, P, S, Z', R. simpl.
  assert (HK : has_key trade "order_id" = Ok true).
  { destruct trade; try discriminate O. simpl in *.
    destruct (assoc "order_id" members); [reflexivity|discriminate]. }
  rewrite HK. simpl. rewrite O. reflexivity.
Qed.

(** C5, on the order-shaped records: for a record without [order_id]
    that has the base fields, [id] and [type], the order branch reads
    [fill_fees] from the dict under construction instead of the raw
    record, and normalisation ends in [KeyError] instead of the
    order-shaped field set. *)
Theorem order_shaped_raises_key_error trade created pair side size price id type :
  has_key trade "order_id" = Ok false ->
  getitem trade "created_at" = Ok created ->
  getitem trade "product_id" = Ok pair ->
  getitem trade "side" = Ok side ->
  getitem trade "size" = Ok size ->
  getitem trade "price" = Ok price ->
  getitem trade "id" = Ok id ->
  getitem trade "type" = Ok type ->
  _trade_normalization trade = Raise (KeyError "fill_fees").
Proof.
  intros HK C P S Z' R I T. unfold _trade_normalization.
  rewrite C, P, S, Z', R. simpl. rewrite HK. simpl. rewrite I. simpl.
  rewrite T. simpl.
  generalize ID. intros feed. vm_compute. reflexivity.
Qed.

Lemma without_order_id_never_normalized trade :
  has_key trade "order_id" <> Ok true ->
  is_ok (_trade_normalization trade) = false.
Proof.
  intros HK. unfold _trade_normalization.
  destruct (getitem trade "created_at"); [|reflexivity].
  destruct (getitem trade "product_id"); [|reflexivity].
  destruct (getitem trade "side"); [|reflexivity].
  destruct (getitem trade "size"); [|reflexivity].
  destruct (getitem trade "price"); [|reflexivity]. simpl.
  destruct (has_key trade "order_id") as [[|]|]; [congruence| |reflexivity].
  simpl.
  destruct (getitem trade "id"); [|reflexivity]. simpl.
  destruct (getitem trade "type"); [|reflexivity]. simpl.
  generalize ID. intros feed. vm_compute. reflexivity.
Qed.
End RecordFacts.

Section FillsFacts.
Context {env : Collaborators} (self : client).

Lemma get_fills_fetched fuel symbol retry retry_wait start_date end_date w sym data w1 :
  fetch_fills self fuel symbol w = (Some (Ok (sym, data)), w1) ->
  _get_fills self fuel symbol retry retry_wait start_date end_date w =
    bind (filter_by_date start_date end_date data)
         (fun d => lift (normalize_fills sym d)) w1.
Proof. intros F. unfold _get_fills. now rewrite (bind_ok _ _ _ _ _ F). Qed.

Lemma filter_by_date_inactive start_date end_date data w :
  start_date = None \/ end_date = None ->
  filter_by_date start_date end_date data w = (Some (Ok data), after_no_data_check data w).
Proof.
  intros H. unfold filter_by_date, after_no_data_check.
  destruct (is_empty_list data); [reflexivity|].
  destruct H as [-> | ->]; [reflexivity|]. now destruct start_date.
Qed.

Lemma filter_by_date_no_data start_date end_date w :
  filter_by_date start_date end_date (JList []) w =
    (Some (Ok (JList [])), logged [EvLog Warning "%s: No data"] w).
Proof. reflexivity. Qed.

Lemma select_in_range_raises t0 t1 entry rest acc :
  select_in_range t0 t1 (entry :: rest) acc = Raise (NameError "datetime").
Proof.
  cbn -[module_globals]. unfold load_global. now rewrite datetime_is_no_global.
Qed.

Lemma normalize_fills_raises sym data x rest :
  iterate data = Ok (x :: rest) ->
  normalize_fills sym data =
    Raise (TypeError "_trade_normalization() takes 2 positional arguments").
Proof. intros I. unfold normalize_fills. rewrite I. reflexivity. Qed.

(** Nothing fetched: a warning, and the empty list, whatever the dates. *)
Lemma get_fills_on_no_data fuel symbol retry retry_wait start_date end_date w sym w1 :
  fetch_fills self fuel symbol w = (Some (Ok (sym, JList [])), w1) ->
  _get_fills self fuel symbol retry retry_wait start_date end_date w =
    (Some (Ok []), logged [EvLog Warning "%s: No data"] w1).
Proof.
  intros F. rewrite (get_fills_fetched _ _ _ _ _ _ _ _ _ _ F).
  unfold bind. now rewrite filter_by_date_no_data.
Qed.

(** Whatever was fetched, the map over it returns only when there is
    nothing to map. *)
Lemma normalize_fills_ok sym data l :
  normalize_fills sym data = Ok l -> l = [] /\ iterate data = Ok [].
Proof.
  unfold normalize_fills. destruct (iterate data) as [items|]; [|discriminate].
  destruct items as [|x rest]; cbn [res_bind map_res call_method1].
  - intros [= <-]. split; reflexivity.
  - discriminate.
Qed.

Lemma get_fills_returns_only_empty fuel symbol retry retry_wait start_date end_date w l :
  fst (_get_fills self fuel symbol retry retry_wait start_date end_date w) = Some (Ok l) ->
  l = [].
Proof.
  unfold _get_fills. unfold bind at 1.
  destruct (fetch_fills self fuel symbol w) as [[[[sym data]|]|] w1]; try discriminate.
  unfold bind.
  destruct (filter_by_date start_date end_date data w1) as [[[d|]|] w2]; try discriminate.
  unfold lift. cbn [fst]. intros [= E]. now apply normalize_fills_ok in E.
Qed.

(** C3, on fetched records: with both dates supplied and at least one
    record fetched, the filter loop looks up the name [datetime], which
    the module never binds, and the fetch ends in [NameError] instead of
    the records in range. *)
Theorem date_range_filter_raises_name_error
    fuel symbol retry retry_wait s e w sym entry rest w1 t0 t1 :
  fetch_fills self fuel symbol w = (Some (Ok (sym, JList (entry :: rest))), w1) ->
  pd_Timestamp s = Ok t0 ->
  pd_Timestamp e = Ok t1 ->
  _get_fills self fuel symbol retry retry_wait (Some s) (Some e) w =
    (Some (Raise (NameError "datetime")), w1).
Proof.
  intros F S E. rewrite (get_fills_fetched _ _ _ _ _ _ _ _ _ _ F).
  unfold filter_by_date. cbn [is_empty_list]. unfold bind at 1.
  rewrite bind_lift, S. cbn beta iota.
  rewrite bind_lift, E. cbn beta iota.
  rewrite bind_lift. cbn [iterate]. cbn beta iota.
  rewrite bind_lift, select_in_range_raises. reflexivity.
Qed.

(** C4, on a successful fetch: when the filter is not active and at least
    one record was fetched, the call of [_trade_normalization] with two
    arguments ends the fetch in [TypeError] instead of normalised
    records. *)
Theorem fetched_records_raise_type_error
    fuel symbol retry retry_wait start_date end_date w sym data x rest w1 :
  fetch_fills self fuel symbol w = (Some (Ok (sym, data)), w1) ->
  iterate data = Ok (x :: rest) ->
  start_date = None \/ end_date = None ->
  _get_fills self fuel symbol retry retry_wait start_date end_date w =
    (Some (Raise (TypeError "_trade_normalization() takes 2 positional arguments")), w1).
Proof.
  intros F I H. rewrite (get_fills_fetched _ _ _ _ _ _ _ _ _ _ F).
  unfold bind. rewrite filter_by_date_inactive by exact H.
  unfold lift. rewrite (normalize_fills_raises _ _ _ _ I).
  unfold after_no_data_check.
  destruct data as [| | | |items|]; try reflexivity.
  destruct items; [discriminate I|reflexivity].
Qed.

(** C10: when exactly one of the two dates is supplied, no date filter is
    applied: the fetched data reaches normalisation as fetched, and the
    call behaves as with no date at all. *)
Theorem one_sided_range_is_not_filtered
    fuel symbol retry retry_wait start_date end_date w sym data w1 :
  (is_Some start_date /\ end_date = None) \/ (start_date = None /\ is_Some end_date) ->
  fetch_fills self fuel symbol w = (Some (Ok (sym, data)), w1) ->
  filter_by_date start_date end_date data w1 = (Some (Ok data), after_no_data_check data w1)
  /\ _get_fills self fuel symbol retry retry_wait start_date end_date w =
       (Some (normalize_fills sym data), after_no_data_check data w1)
  /\ fills self fuel symbol start_date end_date retry retry_wait w =
       fills self fuel symbol None None retry retry_wait w.
Proof.
  intros H F.
  assert (H' : start_date = None \/ end_date = None) by (destruct H as [[_ ?]|[? _]]; auto).
  split; [now apply filter_by_date_inactive|]. split.
  - rewrite (get_fills_fetched _ _ _ _ _ _ _ _ _ _ F).
    unfold bind. now rewrite filter_by_date_inactive.
  - unfold fills. rewrite !(get_fills_fetched _ _ _ _ _ _ _ _ _ _ F).
    unfold bind. rewrite !filter_by_date_inactive; auto.
Qed.

(** C1, as the code runs: whatever retry budget and wait [fills] is given,
    they are not handed on to the dispatcher; a transport failure ends the
    call after one attempt and no sleep, in [UnboundLocalError] for
    [retry] instead of the transport error after [N + 1] attempts. *)
Theorem fills_budget_is_not_handed_on
    fuel symbol start_date end_date retry retry_wait w sym endpoint header e :
  fills_endpoint symbol = Ok (sym, endpoint) ->
  _generate_signature self endpoint "GET" "" w = (Some (Ok header), ticked w) ->
  transport w (attempts w) = Fails e ->
  transport_failure e = true ->
  fills self (S fuel) symbol start_date end_date retry retry_wait w =
    (Some (Raise (UnboundLocalError "retry")),
     logged [EvLog Warning (warning_of e)]
       (sent (request_event self "GET" endpoint (PyData header) None) (ticked w))).
Proof.
  intros P G T K. unfold fills, _get_fills, fetch_fills.
  unfold bind at 1. rewrite bind_lift, P. cbn beta iota.
  unfold bind at 1. rewrite G.
  unfold bind at 1.
  rewrite (transport_failure_reads_unbound_retry self fuel "GET" endpoint _ None _ e);
    auto.
Qed.
End FillsFacts.

Section OrdersFacts.
Context {env : Collaborators} (self : client).

Lemma append_assoc (a b c : string) : (a +:+ b) +:+ c = a +:+ (b +:+ c).
Proof.
  induction a as [|x a IH]; [reflexivity|].
  change (String x ((a +:+ b) +:+ c) = String x (a +:+ b +:+ c)). now rewrite IH.
Qed.

Lemma append_empty_r (a : string) : a +:+ EmptyString = a.
Proof.
  induction a as [|x a IH]; [reflexivity|].
  change (String x (a +:+ EmptyString) = String x a). now rewrite IH.
Qed.

Lemma prefix_append needle : forall a b,
  String.prefix needle a = true -> String.prefix needle (a +:+ b) = true.
Proof.
  induction needle as [|c needle IH]; intros a b P.
  - now destruct (a +:+ b).
  - destruct a as [|x a]; [discriminate P|].
    change (String x a +:+ b) with (String x (a +:+ b)).
    cbn [String.prefix] in *.
    destruct (ascii_dec c x); [now apply IH|discriminate P].
Qed.

Lemma contains_append needle a b :
  contains needle a = true -> contains needle (a +:+ b) = true.
Proof.
  induction a as [|x a IH]; intros C.
  - simpl in C. rewrite orb_false_r in C.
    destruct needle; [|discriminate C]. now destruct b.
  - cbn [contains] in C. apply orb_true_iff in C. destruct C as [P|C].
    + apply (prefix_append needle (String x a) b) in P.
      change (String x a +:+ b) with (String x (a +:+ b)) in P |- *.
      cbn [contains]. now rewrite P.
    + change (String x a +:+ b) with (String x (a +:+ b)).
      cbn [contains]. rewrite (IH C). apply orb_true_r.
Qed.

Lemma later_statuses_appended rest : forall endpoint,
  contains "status" endpoint = true ->
  fold_left add_status rest endpoint = endpoint +:+ later_statuses rest
  /\ contains "status" (fold_left add_status rest endpoint) = true.
Proof.
  induction rest as [|st rest IH]; intros endpoint C.
  - simpl. now rewrite append_empty_r.
  - cbn [fold_left later_statuses fold_right].
    assert (A : add_status endpoint st = endpoint +:+ "&status" +:+ st).
    { unfold add_status. now rewrite C. }
    rewrite A.
    destruct (IH (endpoint +:+ "&status" +:+ st)) as [E C'].
    { now apply contains_append. }
    split; [|exact C'].
    rewrite E. now rewrite !append_assoc.
Qed.

(** C6, as the code builds the endpoint: the first status is joined with
    [?status=], every later one with [&status] and no [=], and the
    product with [?product_id=] after a status and with [&product_id=]
    when it is the first parameter. *)
Theorem orders_endpoint_as_built first rest p p' :
  pair_std_to_exchange p ID = Ok p' ->
  orders_endpoint {| status := Some (first :: rest); product_id := Some p |}
    = Ok ("/orders?status=" +:+ first +:+ later_statuses rest +:+ "?product_id=" +:+ p')
  /\ orders_endpoint {| status := Some (first :: rest); product_id := None |}
    = Ok ("/orders?status=" +:+ first +:+ later_statuses rest)
  /\ orders_endpoint {| status := Some []; product_id := Some p |}
    = Ok ("/orders&product_id=" +:+ p')
  /\ orders_endpoint {| status := None; product_id := Some p |}
    = Ok ("/orders&product_id=" +:+ p').
Proof.
  intros T.
  assert (C0 : contains "status" ("/orders?status=" +:+ first) = true).
  { now apply (contains_append "status" "/orders?status=" first). }
  destruct (later_statuses_appended rest _ C0) as [E C].
  unfold orders_endpoint. cbn [status product_id fold_left].
  change (add_status "/orders" first) with ("/orders?status=" +:+ first).
  rewrite T. cbn [res_bind]. rewrite C, E.
  repeat split; rewrite ?append_assoc; reflexivity.
Qed.
End OrdersFacts.

Section CancelFacts.
Context {env : Collaborators} (self : client).

(** C9: [body] and [headers] are bound neither in [_delete_order] nor in
    the module, so every call of [_delete_order], and of [cancel_orders],
    ends in [NameError] with the world untouched: no signature is
    computed and no HTTP request is made. *)
Theorem delete_order_raises_name_error fuel order_id w :
  module_globals !! "body" = None
  /\ module_globals !! "headers" = None
  /\ _delete_order self fuel order_id w = (Some (Raise (NameError "body")), w)
  /\ cancel_orders self fuel order_id w = (Some (Raise (NameError "body")), w).
Proof.
  split; [apply body_is_no_global|]. split; [apply headers_is_no_global|].
  assert (E : _delete_order self fuel order_id w = (Some (Raise (NameError "body")), w)).
  { unfold _delete_order. rewrite bind_lift. unfold load_global.
    now rewrite body_is_no_global. }
  split; [exact E|exact E].
Qed.
End CancelFacts.

(** ** The client on the sample inputs *)

Section Runs.
#[local] Existing Instance Reference.env.

Example sha256_abc :
  SHA256.digest (bytes_of "abc") =
    [186; 120; 22; 191; 143; 1; 207; 234; 65; 65; 64; 222; 93; 174; 34; 35;
     176; 3; 97; 163; 150; 23; 122; 156; 180; 16; 255; 97; 242; 0; 21; 173].
Proof. vm_compute. reflexivity. Qed.

Example hmac_rfc4231_case2 :
  HMAC.sha256 (bytes_of "Jefe") (bytes_of "what do ya want for nothing?") =
    [91; 220; 193; 70; 191; 96; 117; 78; 106; 4; 36; 38; 8; 149; 117; 199;
     90; 0; 63; 8; 157; 39; 57; 131; 157; 236; 88; 185; 100; 236; 56; 67].
Proof. vm_compute. reflexivity. Qed.

Example base64_round_trip :
  Base64.decode (Base64.encode (bytes_of "secret")) = Ok (bytes_of "secret")
  /\ Base64.encode (bytes_of "secret") = "c2VjcmV0".
Proof. vm_compute. split; reflexivity. Qed.

(** The signature of the docstring order. *)
Example sample_order_signature :
  getitem (Sample.signed "/orders" "POST" (json_dumps Sample.new_order)) "CB-ACCESS-SIGN"
  = Ok (JStr "AutuYtZBFuN81dPkbIUMpY3NOUAbTKlHHrYTiDuzBtk=").
Proof. vm_compute. reflexivity. Qed.

Lemma signature_matches_specification_witness :
  b64decode (key_secret Sample.account) = Ok (bytes_of "secret")
  /\ is_ok (ascii_encode (clock Sample.offline (clock_reads Sample.offline)
                           +:+ "POST" +:+ "/orders" +:+ json_dumps Sample.new_order)) = true
  /\ exists header,
       _generate_signature Sample.account "/orders" "POST" (json_dumps Sample.new_order)
         Sample.offline = (Some (Ok header), ticked Sample.offline)
       /\ dict_of header =
          spec_headers Sample.account (bytes_of "secret")
            (clock Sample.offline (clock_reads Sample.offline))
            "POST" "/orders" (json_dumps Sample.new_order)
       /\ forall w', clock w' (clock_reads w')
                     = clock Sample.offline (clock_reads Sample.offline) ->
            fst (_generate_signature Sample.account "/orders" "POST"
                   (json_dumps Sample.new_order) w') = Some (Ok header).
Proof.
  assert (K : b64decode (key_secret Sample.account) = Ok (bytes_of "secret"))
    by (vm_compute; reflexivity).
  assert (A : is_ok (ascii_encode (clock Sample.offline (clock_reads Sample.offline)
                       +:+ "POST" +:+ "/orders" +:+ json_dumps Sample.new_order)) = true)
    by (vm_compute; reflexivity).
  split; [exact K|]. split; [exact A|].
  exact (signature_matches_specification Sample.account "/orders" "POST"
           (json_dumps Sample.new_order) Sample.offline (bytes_of "secret") K A).
Defined.

(** C7, as stated for every secret, endpoint and body, fails: for an
    endpoint that is not ASCII (an order id with an e-acute) the signer
    raises [UnicodeEncodeError], and for a secret that is no base64 it
    raises the decoder's error; neither call returns headers. *)
Lemma signer_refuses_non_ascii_and_non_base64 :
  _generate_signature Sample.account ("/orders/" +:+ Scenario.odd_id) "GET" ""
    Sample.offline
  = (Some (Raise UnicodeEncodeError), ticked Sample.offline)
  /\ _generate_signature Scenario.unusable_account "/fills" "GET" "" Sample.offline
    = (Some (Raise Base64Error), ticked Sample.offline).
Proof. split; vm_compute; reflexivity. Qed.

(** *** The dispatcher *)

(** [fills] with a budget of two retries and a wait of ten seconds while
    the exchange cannot be reached. *)
Lemma fills_budget_is_not_handed_on_witness :
  fills_endpoint None = Ok (JNull, "/fills")
  /\ _generate_signature Sample.account "/fills" "GET" "" Sample.offline
    = (Some (Ok (Sample.signed "/fills" "GET" "")), ticked Sample.offline)
  /\ transport Sample.offline (attempts Sample.offline) = Fails ConnectionError
  /\ transport_failure ConnectionError = true
  /\ fills Sample.account 3 None None None (PyInt 2) (PyInt 10) Sample.offline =
       (Some (Raise (UnboundLocalError "retry")),
        logged [EvLog Warning "%s: Connection error - %s"]
          (sent (request_event Sample.account "GET" "/fills"
                   (PyData (Sample.signed "/fills" "GET" "")) None)
                (ticked Sample.offline))).
Proof.
  assert (G : _generate_signature Sample.account "/fills" "GET" "" Sample.offline
              = (Some (Ok (Sample.signed "/fills" "GET" "")), ticked Sample.offline))
    by (vm_compute; reflexivity).
  split; [reflexivity|]. split; [exact G|]. split; [reflexivity|]. split; [reflexivity|].
  exact (fills_budget_is_not_handed_on Sample.account 2 None None None (PyInt 2) (PyInt 10)
           Sample.offline JNull "/fills" _ ConnectionError eq_refl G eq_refl eq_refl).
Defined.

Example fills_offline_attempts_once :
  let run := fills Sample.account 3 None None None (PyInt 2) (PyInt 10) Sample.offline in
  fst run = Some (Raise (UnboundLocalError "retry"))
  /\ attempts (snd run) = 1%nat
  /\ sleeps (trace (snd run)) = [].
Proof. vm_compute. repeat split; reflexivity. Qed.

(** The loop of the dispatcher with the same budget bound in its frame. *)
Example budget_of_two_in_frame :
  let run := request_loop Sample.account 5 (Sample.globals_with_wait (PyInt 10))
               (Sample.frame_with_retry (PyInt 2)) "GET" "/fills" PyNone None
               Sample.offline in
  fst run = Some (Raise ConnectionError)
  /\ attempts (snd run) = 3%nat
  /\ sleeps (trace (snd run)) = [PyInt 10; PyInt 10].
Proof. vm_compute. repeat split; reflexivity. Qed.

(** The dispatcher, called as [_get_fills] calls it, while the exchange
    cannot be reached. *)
Lemma transport_failure_is_replaced_by_unbound_local_witness :
  dispatched "GET" = true
  /\ transport Sample.offline (attempts Sample.offline) = Fails ConnectionError
  /\ transport_failure ConnectionError = true
  /\ exists w',
       _make_request Sample.account 3 "GET" "/fills"
         (PyData (Sample.signed "/fills" "GET" "")) None Sample.offline
       = (Some (Raise (UnboundLocalError "retry")), w')
       /\ UnboundLocalError "retry" <> ConnectionError
       /\ attempts w' = S (attempts Sample.offline)
       /\ sleeps (trace w') = sleeps (trace Sample.offline).
Proof.
  split; [reflexivity|]. split; [reflexivity|]. split; [reflexivity|].
  exact (transport_failure_is_replaced_by_unbound_local Sample.account 2 "GET" "/fills"
           (PyData (Sample.signed "/fills" "GET" "")) None Sample.offline ConnectionError
           eq_refl eq_refl eq_refl).
Defined.

(** [execute_trades] passes [retry=None] to [_post_order], which does not
    hand it on either: the first failed connection ends the call in the
    same way. *)
Example execute_trades_offline :
  let run := execute_trades Sample.account 3 [Sample.new_order] Sample.offline in
  fst run = Some (Raise (UnboundLocalError "retry"))
  /\ fst run <> Some (Raise ConnectionError)
  /\ attempts (snd run) = 1%nat
  /\ sleeps (trace (snd run)) = [].
Proof. vm_compute. repeat split; try reflexivity. discriminate. Qed.

(** A 201 answer with an empty list as body. *)
Lemma other_status_returns_body_witness :
  dispatched "GET" = true
  /\ transport (Sample.answering 201 (JList [])) (attempts (Sample.answering 201 (JList [])))
     = Responds (Sample.reply 201 (JList []))
  /\ status_code (Sample.reply 201 (JList [])) <> 200
  /\ (status_code (Sample.reply 201 (JList [])) < 400
      \/ 600 <= status_code (Sample.reply 201 (JList [])))
  /\ _make_request Sample.account 1 "GET" "/fills" PyNone None
       (Sample.answering 201 (JList []))
     = (Some (Ok (JList [])),
        logged [EvLog Error "%s: Status code %d"; EvLog Error "%s: Headers: %s";
                EvLog Error "%s: Resp: %s"]
          (sent (request_event Sample.account "GET" "/fills" PyNone None)
                (Sample.answering 201 (JList [])))).
Proof.
  assert (N : status_code (Sample.reply 201 (JList [])) <> 200) by (simpl; lia).
  assert (B : status_code (Sample.reply 201 (JList [])) < 400
              \/ 600 <= status_code (Sample.reply 201 (JList [])))
    by (left; simpl; lia).
  split; [reflexivity|]. split; [reflexivity|]. split; [exact N|]. split; [exact B|].
  exact (other_status_returns_body Sample.account 0 "GET" "/fills" PyNone None
           (Sample.answering 201 (JList [])) (Sample.reply 201 (JList []))
           eq_refl eq_refl N B).
Defined.

Example status_404_is_fatal_whatever_the_budget :
  let run := request_loop Sample.account 5 (Sample.globals_with_wait (PyInt 10))
               (Sample.frame_with_retry (PyInt 2)) "GET" "/fills" PyNone None
               (Sample.answering 404 JNull) in
  fst run = Some (Raise (HTTPError 404))
  /\ attempts (snd run) = 1%nat
  /\ sleeps (trace (snd run)) = [].
Proof. vm_compute. repeat split; reflexivity. Qed.

(** *** The fills *)

(** One fill on the exchange, dated 7 November 2014, and the range from
    1 November to 1 December 2014. *)
Lemma date_range_filter_raises_name_error_witness :
  let w := Sample.answering 200 (JList [Sample.fill]) in
  fetch_fills Sample.account 2 None w
    = (Some (Ok (JNull, JList [Sample.fill])), snd (fetch_fills Sample.account 2 None w))
  /\ pd_Timestamp (JStr "2014-11-01") = Ok 20141101000000000000
  /\ pd_Timestamp (JStr "2014-12-01") = Ok 20141201000000000000
  /\ _get_fills Sample.account 2 None PyNone (PyInt 10)
       (Some (JStr "2014-11-01")) (Some (JStr "2014-12-01")) w
     = (Some (Raise (NameError "datetime")), snd (fetch_fills Sample.account 2 None w)).
Proof.
  intros w.
  assert (F : fetch_fills Sample.account 2 None w
              = (Some (Ok (JNull, JList [Sample.fill])),
                 snd (fetch_fills Sample.account 2 None w)))
    by (vm_compute; reflexivity).
  assert (S : pd_Timestamp (JStr "2014-11-01") = Ok 20141101000000000000)
    by (vm_compute; reflexivity).
  assert (E : pd_Timestamp (JStr "2014-12-01") = Ok 20141201000000000000)
    by (vm_compute; reflexivity).
  split; [exact F|]. split; [exact S|]. split; [exact E|].
  exact (date_range_filter_raises_name_error Sample.account 2 None PyNone (PyInt 10)
           (JStr "2014-11-01") (JStr "2014-12-01") w JNull Sample.fill [] _ _ _ F S E).
Defined.

(** With both dates and nothing fetched the result is empty. *)
Example date_range_on_no_data :
  fst (fills Sample.account 2 None (Some (JStr "2014-11-01")) (Some (JStr "2014-12-01"))
         PyNone (PyInt 10) (Sample.answering 200 (JList [])))
  = Some (Ok []).
Proof. vm_compute. reflexivity. Qed.

Lemma fetched_records_raise_type_error_witness :
  let w := Sample.answering 200 (JList [Sample.fill]) in
  fetch_fills Sample.account 2 None w
    = (Some (Ok (JNull, JList [Sample.fill])), snd (fetch_fills Sample.account 2 None w))
  /\ iterate (JList [Sample.fill]) = Ok [Sample.fill]
  /\ ((None : option json) = None \/ (None : option json) = None)
  /\ _get_fills Sample.account 2 None PyNone (PyInt 10) None None w
     = (Some (Raise (TypeError "_trade_normalization() takes 2 positional arguments")),
        snd (fetch_fills Sample.account 2 None w)).
Proof.
  intros w.
  assert (F : fetch_fills Sample.account 2 None w
              = (Some (Ok (JNull, JList [Sample.fill])),
                 snd (fetch_fills Sample.account 2 None w)))
    by (vm_compute; reflexivity).
  split; [exact F|]. split; [reflexivity|]. split; [left; reflexivity|].
  exact (fetched_records_raise_type_error Sample.account 2 None PyNone (PyInt 10)
           None None w JNull (JList [Sample.fill]) Sample.fill [] _ F eq_refl
           (or_introl eq_refl)).
Defined.

(** The same when the body is the fill itself rather than a list. *)
Example fills_on_a_single_record :
  fst (fills Sample.account 2 None None None PyNone (PyInt 10)
         (Sample.answering 200 Sample.fill))
  = Some (Raise (TypeError "_trade_normalization() takes 2 positional arguments")).
Proof. vm_compute. reflexivity. Qed.

(** What [_trade_normalization] makes of the fill when called with it. *)
Example sample_fill_normalized :
  _trade_normalization Sample.fill =
    Ok {[ "timestamp" := JStr "2014-11-07T22:19:28.578544Z";
          "pair" := JStr "BTC-USD"; "feed" := JStr "GDAX"; "side" := JStr "buy";
          "amount" := JStr "0.01"; "price" := JStr "10.00";
          "id" := JStr "d50ec984-77a8-460a-b958-66f114b0de9b" ]}.
Proof. vm_compute. reflexivity. Qed.

Lemma one_sided_range_is_not_filtered_witness :
  let w := Sample.answering 200 (JList [Sample.fill]) in
  let w1 := snd (fetch_fills Sample.account 2 None w) in
  ((is_Some (Some (JStr "2014-12-01")) /\ (None : option json) = None)
   \/ (Some (JStr "2014-12-01") = None /\ is_Some (None : option json)))
  /\ fetch_fills Sample.account 2 None w = (Some (Ok (JNull, JList [Sample.fill])), w1)
  /\ filter_by_date (Some (JStr "2014-12-01")) None (JList [Sample.fill]) w1
     = (Some (Ok (JList [Sample.fill])), after_no_data_check (JList [Sample.fill]) w1)
  /\ _get_fills Sample.account 2 None PyNone (PyInt 10) (Some (JStr "2014-12-01")) None w
     = (Some (normalize_fills JNull (JList [Sample.fill])),
        after_no_data_check (JList [Sample.fill]) w1)
  /\ fills Sample.account 2 None (Some (JStr "2014-12-01")) None PyNone (PyInt 10) w
     = fills Sample.account 2 None None None PyNone (PyInt 10) w.
Proof.
  intros w w1.
  assert (H : (is_Some (Some (JStr "2014-12-01")) /\ (None : option json) = None)
              \/ (Some (JStr "2014-12-01") = None /\ is_Some (None : option json)))
    by (left; split; [eexists; reflexivity|reflexivity]).
  assert (F : fetch_fills Sample.account 2 None w
              = (Some (Ok (JNull, JList [Sample.fill])), w1))
    by (vm_compute; reflexivity).
  split; [exact H|]. split; [exact F|].
  exact (one_sided_range_is_not_filtered Sample.account 2 None PyNone (PyInt 10)
           (Some (JStr "2014-12-01")) None w JNull (JList [Sample.fill]) w1 H F).
Defined.

(** *** The orders *)

Lemma order_shaped_raises_key_error_witness :
  has_key Sample.order "order_id" = Ok false
  /\ getitem Sample.order "created_at" = Ok (JStr "2016-12-08T20:02:28.538110Z")
  /\ getitem Sample.order "product_id" = Ok (JStr "BTC-USD")
  /\ getitem Sample.order "side" = Ok (JStr "buy")
  /\ getitem Sample.order "size" = Ok (JStr "0.01")
  /\ getitem Sample.order "price" = Ok (JStr "0.100")
  /\ getitem Sample.order "id" = Ok (JStr "68e6a28f-ae28-4788-8d4f-5ab4e5e5ae08")
  /\ getitem Sample.order "type" = Ok (JStr "limit")
  /\ getitem Sample.order "fill_fees" = Ok (JStr "0.0000000000000000")
  /\ _trade_normalization Sample.order = Raise (KeyError "fill_fees").
Proof.
  repeat (split; [reflexivity|]).
  exact (order_shaped_raises_key_error Sample.order _ _ _ _ _ _ _
           eq_refl eq_refl eq_refl eq_refl eq_refl eq_refl eq_refl eq_refl).
Defined.

Lemma orders_endpoint_as_built_witness :
  pair_std_to_exchange "BTC-USD" ID = Ok "BTC-USD"
  /\ orders_endpoint Sample.both_filters
     = Ok "/orders?status=open&statuspending?product_id=BTC-USD"
  /\ orders_endpoint {| status := None; product_id := Some "BTC-USD" |}
     = Ok "/orders&product_id=BTC-USD".
Proof.
  assert (T : pair_std_to_exchange "BTC-USD" ID = Ok "BTC-USD") by reflexivity.
  split; [exact T|].
  destruct (orders_endpoint_as_built "open" ["pending"] "BTC-USD" "BTC-USD" T)
    as (E1 & _ & _ & E4).
  split; [exact E1|exact E4].
Defined.

(** The endpoint with every parameter as key=value is not the one
    requested. *)
Example orders_endpoint_is_not_well_formed :
  orders_endpoint Sample.both_filters
  <> Ok "/orders?status=open&status=pending&product_id=BTC-USD".
Proof. vm_compute. discriminate. Qed.

Example cancel_orders_on_sample :
  let run := cancel_orders Sample.account 3 (Some "68e6a28f") Sample.offline in
  fst run = Some (Raise (NameError "body"))
  /\ attempts (snd run) = 0%nat
  /\ trace (snd run) = [].
Proof. vm_compute. repeat split; reflexivity. Qed.

End Runs.

(** * Further properties *)

(** ** The dispatcher *)

Section DispatcherBehaviour.
Context {env : Collaborators} (self : client).

Lemma logged_nil w : logged [] w = w.
Proof. destruct w. unfold logged. simpl. now rewrite app_nil_r. Qed.

Lemma send_undispatched method endpoint header body w :
  dispatched method = false ->
  send self method endpoint header body w = (Some (Ok None), w).
Proof.
  unfold dispatched, send. intros D.
  destruct (String.eqb method "GET"); [discriminate|].
  destruct (String.eqb method "POST"); [discriminate|].
  destruct (String.eqb method "DELETE"); [discriminate|]. reflexivity.
Qed.

Lemma logs_have_no_sleeps evs : forallb is_log evs = true -> sleeps evs = [].
Proof.
  induction evs as [|ev evs IH]; [reflexivity|]. simpl.
  destruct ev; try discriminate. exact IH.
Qed.

Lemma logs_have_no_requests evs : forallb is_log evs = true -> requests_in evs = 0%nat.
Proof.
  unfold requests_in. induction evs as [|ev evs IH]; [reflexivity|]. simpl.
  destruct ev; try discriminate. exact IH.
Qed.

(** The status chain only writes to the log. *)
Lemma check_status_only_logs r w :
  exists res evs, check_status r w = (Some res, logged evs w) /\ forallb is_log evs = true.
Proof.
  unfold check_status.
  destruct (status_code r =? 400).
  { rewrite !bind_log, !logged_logged. unfold lift. eauto. }
  destruct ((status_code r =? 401) || (status_code r =? 403) || (status_code r =? 404)).
  { rewrite !bind_log, !logged_logged. unfold lift. eauto. }
  destruct (status_code r =? 500).
  { rewrite !bind_log. unfold lift. eauto. }
  destruct (negb (status_code r =? 200)).
  { rewrite !bind_log, !logged_logged. unfold lift. eauto. }
  exists (Ok tt), []. now rewrite logged_nil.
Qed.

(** One call of the dispatcher, accounted for. *)
Lemma make_request_accounting fuel method endpoint header body w :
  exists outcome w',
    _make_request self (S fuel) method endpoint header body w = (Some outcome, w')
    /\ attempts w' = (if dispatched method then S (attempts w) else attempts w)
    /\ sleeps (trace w') = sleeps (trace w)
    /\ clock_reads w' = clock_reads w
    /\ transport w' = transport w
    /\ clock w' = clock w.
Proof.
  destruct (dispatched method) eqn:D.
  - destruct (transport w (attempts w)) as [r|e] eqn:T.
    + unfold _make_request.
      rewrite (request_loop_response _ _ _ _ _ _ _ _ _ r) by assumption.
      unfold on_response.
      destruct (check_status_only_logs r
                  (sent (request_event self method endpoint header body) w))
        as (res & evs & E & L).
      unfold bind. rewrite E.
      destruct res as [[]|x]; eexists; eexists; (split; [reflexivity|]);
        simpl; rewrite !sleeps_app, (logs_have_no_sleeps evs L);
        unfold request_event; simpl; rewrite !app_nil_r; auto 6.
    + destruct (transport_failure e) eqn:K.
      * rewrite (transport_failure_reads_unbound_retry _ _ _ _ _ _ _ e) by assumption.
        eexists; eexists; split; [reflexivity|]. simpl.
        rewrite <- app_assoc, sleeps_app. unfold request_event. simpl.
        rewrite app_nil_r. auto 6.
      * unfold _make_request. simpl. unfold bind at 1. unfold try_except.
        unfold bind at 1. rewrite send_dispatched by exact D. rewrite T.
        eexists; eexists. split.
        { destruct e; try discriminate K; reflexivity. }
        simpl. rewrite sleeps_app. unfold request_event. simpl.
        rewrite app_nil_r. auto 6.
  - unfold _make_request. simpl. unfold bind at 1. unfold try_except.
    unfold bind at 1. rewrite send_undispatched by exact D.
    eexists; eexists. split; [reflexivity|]. auto 6.
Qed.

(** X1: whatever the request and whatever the network does, a call of
    the dispatcher ends within its first iteration: it returns or raises
    after at most one HTTP call (exactly one for GET, POST and DELETE, none
    for any other method), without ever sleeping and without reading the
    clock. *)
Theorem dispatcher_ends_at_first_attempt fuel method endpoint header body w :
  exists outcome w',
    _make_request self (S fuel) method endpoint header body w = (Some outcome, w')
    /\ attempts w' = (if dispatched method then S (attempts w) else attempts w)
    /\ sleeps (trace w') = sleeps (trace w)
    /\ clock_reads w' = clock_reads w.
Proof.
  destruct (make_request_accounting fuel method endpoint header body w)
    as (outcome & w' & E & A & S' & C & _).
  exists outcome, w'. auto.
Qed.

(** X2: for a method other than GET, POST and DELETE no branch of the
    [try] block assigns [resp]: whatever the frame holds, the dispatcher
    makes no HTTP call, logs nothing, and raises [UnboundLocalError] for
    [resp]. *)
Theorem unknown_method_makes_no_request
    fuel globals locals method endpoint header body w :
  dispatched method = false ->
  request_loop self (S fuel) globals locals method endpoint header body w
    = (Some (Raise (UnboundLocalError "resp")), w)
  /\ _make_request self (S fuel) method endpoint header body w
    = (Some (Raise (UnboundLocalError "resp")), w).
Proof.
  intros D.
  assert (E : forall g l, request_loop self (S fuel) g l method endpoint header body w
                          = (Some (Raise (UnboundLocalError "resp")), w)).
  { intros g l. simpl. unfold bind at 1. unfold try_except.
    unfold bind at 1. now rewrite send_undispatched by exact D. }
  split; [apply E|]. unfold _make_request. apply E.
Qed.

(** X3: an exception of the HTTP call that is neither [TimeoutError] nor
    the connection error passes both [except] clauses: whatever budget the
    frame holds, it reaches the caller after the one attempt, with nothing
    logged and no sleep. *)
Theorem other_exceptions_are_not_caught
    fuel globals locals method endpoint header body w e :
  dispatched method = true ->
  transport w (attempts w) = Fails e ->
  transport_failure e = false ->
  request_loop self (S fuel) globals locals method endpoint header body w
    = (Some (Raise e), sent (request_event self method endpoint header body) w).
Proof.
  intros D T K. simpl. unfold bind at 1. unfold try_except.
  unfold bind at 1. rewrite send_dispatched by exact D. rewrite T.
  destruct e; try discriminate K; reflexivity.
Qed.

(** What the status chain logs for a 4xx or 5xx answer. *)
Lemma check_status_error_logs r w :
  400 <= status_code r < 600 ->
  exists evs,
    check_status r w = (Some (Raise (HTTPError (status_code r))), logged evs w)
    /\ forallb is_log evs = true
    /\ In (EvLog Error "%s: Status code %d") evs
    /\ (In (EvLog Error "%s: Resp: %s") evs <->
        ~ (status_code r = 401 \/ status_code r = 403 \/ status_code r = 404
           \/ status_code r = 500)).
Proof.
  intros B.
  assert (RS : raise_for_status r = Raise (HTTPError (status_code r))).
  { unfold raise_for_status.
    destruct (Z.leb_spec 400 (status_code r)); [|lia].
    destruct (Z.ltb_spec (status_code r) 600); [|lia]. reflexivity. }
  unfold check_status. cbv zeta.
  destruct (Z.eqb_spec (status_code r) 400) as [E4|N4].
  { rewrite !bind_log, RS, !logged_logged. eexists. split; [reflexivity|].
    split; [reflexivity|]. split; [simpl; auto|]. split; [intros _; lia|].
    intros _. simpl. auto. }
  destruct (Z.eqb_spec (status_code r) 401) as [E1|N1].
  { simpl. rewrite !bind_log, RS, !logged_logged. eexists. split; [reflexivity|].
    split; [reflexivity|]. split; [simpl; auto|]. split; [|intros H; exfalso; auto].
    simpl. intros [H|[H|[]]]; discriminate H. }
  destruct (Z.eqb_spec (status_code r) 403) as [E3|N3].
  { simpl. rewrite !bind_log, RS, !logged_logged. eexists. split; [reflexivity|].
    split; [reflexivity|]. split; [simpl; auto|]. split; [|intros H; exfalso; auto].
    simpl. intros [H|[H|[]]]; discriminate H. }
  destruct (Z.eqb_spec (status_code r) 404) as [E44|N44].
  { simpl. rewrite !bind_log, RS, !logged_logged. eexists. split; [reflexivity|].
    split; [reflexivity|]. split; [simpl; auto|]. split; [|intros H; exfalso; auto 6].
    simpl. intros [H|[H|[]]]; discriminate H. }
  simpl.
  destruct (Z.eqb_spec (status_code r) 500) as [E5|N5].
  { rewrite !bind_log, RS. eexists. split; [reflexivity|].
    split; [reflexivity|]. split; [simpl; auto|]. split; [|intros H; exfalso; auto 6].
    simpl. intros [H|[]]; discriminate H. }
  destruct (Z.eqb_spec (status_code r) 200) as [E2|N2]; [lia|]. simpl.
  rewrite !bind_log, RS, !logged_logged. eexists. split; [reflexivity|].
  split; [reflexivity|]. split; [simpl; auto|]. split; [intros _; lia|].
  intros _. simpl. auto.
Qed.

(** X4: a 4xx or 5xx answer is fatal whatever budget the frame holds:
    [HTTPError] after the one attempt and no sleep.  The status code is
    always logged as an error; the response body is logged unless the
    status is 401, 403, 404 or 500. *)
Theorem http_error_ends_the_call
    fuel globals locals method endpoint header body w r :
  dispatched method = true ->
  transport w (attempts w) = Responds r ->
  400 <= status_code r < 600 ->
  exists evs,
    request_loop self (S fuel) globals locals method endpoint header body w
      = (Some (Raise (HTTPError (status_code r))),
         logged evs (sent (request_event self method endpoint header body) w))
    /\ forallb is_log evs = true
    /\ In (EvLog Error "%s: Status code %d") evs
    /\ (In (EvLog Error "%s: Resp: %s") evs <->
        ~ (status_code r = 401 \/ status_code r = 403 \/ status_code r = 404
           \/ status_code r = 500)).
Proof.
  intros D T B. rewrite (request_loop_response _ _ _ _ _ _ _ _ _ r) by assumption.
  destruct (check_status_error_logs r
              (sent (request_event self method endpoint header body) w) B)
    as (evs & E & L & I1 & I2).
  exists evs. split; [|auto].
  unfold on_response. unfold bind. now rewrite E.
Qed.

(** X5: on a 200 answer the dispatcher returns what [resp.json()] gives,
    [JSONDecodeError] included, after one HTTP call and with nothing
    logged; the call carries the body for POST only: GET and DELETE drop
    it. *)
Theorem ok_answer_is_returned_silently
    fuel globals locals method endpoint header body w r :
  dispatched method = true ->
  transport w (attempts w) = Responds r ->
  status_code r = 200 ->
  exists w',
    request_loop self (S fuel) globals locals method endpoint header body w
      = (Some (match parsed r with Some j => Ok j | None => Raise JSONDecodeError end), w')
    /\ attempts w' = S (attempts w)
    /\ trace w' = trace w ++
         [EvRequest method (base_url self +:+ endpoint) header
            (if String.eqb method "POST" then body else None)].
Proof.
  intros D T E. rewrite (request_loop_response _ _ _ _ _ _ _ _ _ r) by assumption.
  unfold on_response. unfold bind. rewrite check_status_200 by exact E.
  eexists. split; [reflexivity|]. split; reflexivity.
Qed.

Lemma requests_in_app t t' : requests_in (t ++ t') = (requests_in t + requests_in t')%nat.
Proof. unfold requests_in. now rewrite List.filter_app, length_app. Qed.

(** The handler of a transport failure only logs and sleeps, whether
    it returns or raises. *)
Lemma handler_makes_no_request globals locals e fmt w :
  exists o evs,
    on_transport_failure globals locals e fmt w = (Some o, logged evs w)
    /\ forallb (fun ev => negb (is_request ev)) evs = true.
Proof.
  unfold on_transport_failure. rewrite bind_log, bind_lift.
  destruct (load_local locals "retry") as [retry|x]; [|eauto].
  assert (W : forall (l' : gmap string pyobj) w1,
             exists o evs,
               (retry_wait <- lift (load_global globals "retry_wait") ;;
                sleep retry_wait ;;; ret l') (logged [EvLog Warning fmt] w1)
               = (Some o, logged evs w1)
               /\ forallb (fun ev => negb (is_request ev)) evs = true).
  { intros l' w1. rewrite bind_lift.
    destruct (load_global globals "retry_wait") as [wait|x]; [|eauto].
    unfold bind at 1.
    destruct (sleep_outcome wait (logged [EvLog Warning fmt] w1)) as [E|[x E]];
      rewrite E; [rewrite logged_logged; unfold ret|]; eauto. }
  destruct (is_not_None retry).
  - destruct (eq_zero retry).
    + unfold bind at 1. unfold raise. eauto.
    + unfold bind at 1. rewrite bind_lift.
      destruct (minus_one retry) as [retry'|x]; [|eauto].
      unfold ret at 1. apply W.
  - unfold bind at 1. unfold ret at 1. apply W.
Qed.

(** X6: however many times the loop goes round, in any frame, every HTTP
    call it makes is the same one: same method, same URL under the base
    URL chosen by the sandbox flag, same headers (the signature and its
    timestamp are not renewed for a retry) and same body.  The attempt
    counter grows by the number of calls, and the clock is never read. *)
Theorem every_attempt_sends_the_same_request (fuel : nat) :
  forall globals locals method endpoint header body w,
  exists o w' evs,
    request_loop self fuel globals locals method endpoint header body w = (o, w')
    /\ trace w' = trace w ++ evs
    /\ Forall (fun ev => is_request ev = true ->
                         ev = request_event self method endpoint header body) evs
    /\ attempts w' = (attempts w + requests_in evs)%nat
    /\ clock_reads w' = clock_reads w
    /\ transport w' = transport w.
Proof.
  induction fuel as [|fuel IH]; intros globals locals method endpoint header body w.
  - exists None, w, []. simpl. unfold diverge. rewrite app_nil_r.
    repeat split; auto.
  - destruct (dispatched method) eqn:D.
    2:{ exists (Some (Raise (UnboundLocalError "resp"))), w, [].
        split.
        { simpl. unfold bind at 1. unfold try_except.
          unfold bind at 1. now rewrite send_undispatched by exact D. }
        rewrite app_nil_r. repeat split; auto. }
    set (ev := request_event self method endpoint header body).
    assert (Hev : is_request ev = true) by reflexivity.
    destruct (transport w (attempts w)) as [r|e] eqn:T.
    + rewrite (request_loop_response _ _ _ _ _ _ _ _ _ r) by assumption.
      fold ev. unfold on_response.
      destruct (check_status_only_logs r (sent ev w)) as (res & evs & E & L).
      unfold bind. rewrite E.
      exists (match res with Ok _ => Some (resp_json r) | Raise x => Some (Raise x) end),
             (logged evs (sent ev w)), (ev :: evs).
      split; [destruct res as [[]|x]; reflexivity|].
      split; [simpl; now rewrite <- app_assoc|].
      split.
      { constructor; [auto|]. apply Forall_forall. intros x Hx Rx.
        rewrite forallb_forall in L. apply list_elem_of_In in Hx.
        specialize (L x Hx). destruct x; discriminate. }
      split.
      { simpl. change (ev :: evs) with ([ev] ++ evs).
        rewrite requests_in_app, (logs_have_no_requests evs L).
        unfold requests_in. simpl. lia. }
      split; reflexivity.
    + destruct (transport_failure e) eqn:K.
      2:{ exists (Some (Raise e)), (sent ev w), [ev].
          split.
          { simpl. unfold bind at 1. unfold try_except.
            unfold bind at 1. rewrite send_dispatched by exact D. rewrite T.
            destruct e; try discriminate K; reflexivity. }
          split; [reflexivity|]. split; [constructor; auto|].
          split; [unfold requests_in; simpl; lia|]. split; reflexivity. }
      rewrite (request_loop_failure _ _ _ _ _ _ _ _ _ e) by assumption. fold ev.
      destruct (handler_makes_no_request globals locals e (warning_of e) (sent ev w))
        as (o & evs & E & L).
      rewrite E.
      assert (Levs : Forall (fun x => is_request x = true -> x = ev) evs).
      { apply Forall_forall. intros x Hx Rx.
        rewrite forallb_forall in L. apply list_elem_of_In in Hx.
        specialize (L x Hx). rewrite Rx in L. discriminate. }
      assert (Nevs : requests_in evs = 0%nat).
      { unfold requests_in. clear E Levs. induction evs as [|x evs IHe]; [reflexivity|].
        simpl in *. apply andb_true_iff in L. destruct L as [Lx L].
        destruct (is_request x); [discriminate|]. now apply IHe. }
      destruct o as [locals'|x].
      * destruct (IH globals locals' method endpoint header body
                    (logged evs (sent ev w)))
          as (o' & w' & evs' & R & Tr & Fa & At & Ck & Tp).
        exists o', w', (ev :: evs ++ evs').
        split; [exact R|].
        split; [rewrite Tr; simpl; now rewrite <- !app_assoc|].
        split; [constructor; [auto|]; apply Forall_app; split; assumption|].
        split.
        { rewrite At. simpl. change (ev :: evs ++ evs') with ([ev] ++ evs ++ evs').
          rewrite !requests_in_app, Nevs. unfold requests_in at 2. simpl. lia. }
        split; [rewrite Ck; reflexivity|rewrite Tp; reflexivity].
      * exists (Some (Raise x)), (logged evs (sent ev w)), (ev :: evs).
        split; [reflexivity|].
        split; [simpl; now rewrite <- app_assoc|].
        split; [constructor; auto|].
        split.
        { simpl. change (ev :: evs) with ([ev] ++ evs).
          rewrite requests_in_app, Nevs. unfold requests_in. simpl. lia. }
        split; reflexivity.
Qed.

End DispatcherBehaviour.

(** ** The signer *)

Section SignerBehaviour.
Context {env : Collaborators} (self : client).

Lemma non_ascii_is_not_encoded s c :
  In c (list_ascii_of_string s) ->
  128 <= Z.of_nat (nat_of_ascii c) ->
  ascii_encode s = Raise UnicodeEncodeError.
Proof.
  intros I B. unfold ascii_encode.
  destruct (forallb _ _) eqn:F; [|reflexivity].
  rewrite forallb_forall in F.
  specialize (F (Z.of_nat (nat_of_ascii c))
                (in_map (fun c => Z.of_nat (nat_of_ascii c)) _ _ I)).
  apply Z.ltb_lt in F. lia.
Qed.

Lemma in_append_r a b c :
  In c (list_ascii_of_string b) -> In c (list_ascii_of_string (a +:+ b)).
Proof.
  intros I. induction a as [|x a IH]; [exact I|].
  change (String x a +:+ b) with (String x (a +:+ b)). simpl. now right.
Qed.

Lemma in_append_l a b c :
  In c (list_ascii_of_string a) -> In c (list_ascii_of_string (a +:+ b)).
Proof.
  induction a as [|x a IH]; intros I; [destruct I|].
  change (String x a +:+ b) with (String x (a +:+ b)). simpl in *.
  destruct I as [->|I]; [now left|right; now apply IH].
Qed.

(** X8: the signer fails before anything is sent.  A secret that does
    not decode raises what the decoder raises; with a secret that decodes,
    one character outside ASCII in the endpoint or in the body raises
    [UnicodeEncodeError].  In both cases the clock has been read once and
    the network and the log have not been touched. *)
Theorem signing_fails_before_any_request endpoint method body w :
  (forall x, b64decode (key_secret self) = Raise x ->
     _generate_signature self endpoint method body w = (Some (Raise x), ticked w))
  /\ (forall key c,
        b64decode (key_secret self) = Ok key ->
        In c (list_ascii_of_string endpoint) \/ In c (list_ascii_of_string body) ->
        128 <= Z.of_nat (nat_of_ascii c) ->
        _generate_signature self endpoint method body w
          = (Some (Raise UnicodeEncodeError), ticked w)).
Proof.
  split.
  - intros x K. rewrite generate_signature_run. cbn zeta. now rewrite K.
  - intros key c K I B. rewrite generate_signature_run. cbn zeta. rewrite K.
    cbn [res_bind].
    rewrite (non_ascii_is_not_encoded _ c); [reflexivity| |exact B].
    apply in_append_r, in_append_r.
    destruct I as [I|I]; [now apply in_append_l|now apply in_append_r].
Qed.

(** X9: every signature reads the clock anew: of two signatures made one
    after the other, the first carries the current reading as its
    timestamp and the second the next one. *)
Theorem each_signature_reads_the_clock_anew e1 m1 b1 e2 m2 b2 w h1 w1 h2 w2 :
  _generate_signature self e1 m1 b1 w = (Some (Ok h1), w1) ->
  _generate_signature self e2 m2 b2 w1 = (Some (Ok h2), w2) ->
  getitem h1 "CB-ACCESS-TIMESTAMP" = Ok (JStr (clock w (clock_reads w)))
  /\ getitem h2 "CB-ACCESS-TIMESTAMP" = Ok (JStr (clock w (S (clock_reads w))))
  /\ clock_reads w2 = S (S (clock_reads w)).
Proof.
  rewrite !generate_signature_run. cbn zeta.
  intros E1 E2. injection E1 as E1 W1. subst w1.
  injection E2 as E2 W2. subst w2. cbn [ticked clock clock_reads] in E2.
  destruct (b64decode (key_secret self)) as [key|]; [|discriminate].
  cbn [res_bind] in *.
  destruct (ascii_encode (clock w (clock_reads w) +:+ m1 +:+ e1 +:+ b1));
    [|discriminate].
  destruct (ascii_encode (clock w (S (clock_reads w)) +:+ m2 +:+ e2 +:+ b2));
    [|discriminate].
  cbn [res_bind] in *. injection E1 as <-. injection E2 as <-.
  repeat split; reflexivity.
Qed.

End SignerBehaviour.

(** ** The normalisation *)

Section NormalizationBehaviour.
Context {env : Collaborators}.

Lemma getitem_ok_is_object trade key v :
  getitem trade key = Ok v -> exists members, trade = JObj members /\ assoc key members = Some v.
Proof.
  destruct trade; try discriminate. simpl.
  destruct (assoc key members) eqn:A; [|discriminate].
  intros [= <-]. eauto.
Qed.

(** X10: [_trade_normalization] returns exactly for the records that
    have [order_id] and the five base keys, and what it returns is the
    seven-key record: timestamp, pair, feed, side, amount, price, and the
    [order_id] as id.  Nothing else of the raw record is carried over. *)
Theorem normalization_succeeds_exactly_on_fills trade d :
  _trade_normalization trade = Ok d <->
  exists created pair side size price oid,
    getitem trade "created_at" = Ok created
    /\ getitem trade "product_id" = Ok pair
    /\ getitem trade "side" = Ok side
    /\ getitem trade "size" = Ok size
    /\ getitem trade "price" = Ok price
    /\ getitem trade "order_id" = Ok oid
    /\ d = {[ "timestamp" := created; "pair" := pair; "feed" := ID; "side" := side;
              "amount" := size; "price" := price; "id" := oid ]}.
Proof.
  split.
  - intros E.
    destruct (has_key trade "order_id") as [[|]|x] eqn:HK.
    + unfold _trade_normalization in E.
      destruct (getitem trade "created_at") as [created|] eqn:C; [|discriminate].
      destruct (getitem trade "product_id") as [pair|] eqn:P; [|discriminate].
      destruct (getitem trade "side") as [side|] eqn:S; [|discriminate].
      destruct (getitem trade "size") as [size|] eqn:Z'; [|discriminate].
      destruct (getitem trade "price") as [price|] eqn:R; [|discriminate].
      cbn [res_bind] in E. rewrite HK in E. cbn [res_bind] in E.
      destruct (getitem trade "order_id") as [oid|] eqn:O; [|discriminate].
      cbn [res_bind] in E. injection E as <-.
      exists created, pair, side, size, price, oid. repeat split; reflexivity.
    + assert (N : is_ok (_trade_normalization trade) = false).
      { apply without_order_id_never_normalized. rewrite HK. discriminate. }
      rewrite E in N. discriminate.
    + assert (N : is_ok (_trade_normalization trade) = false).
      { apply without_order_id_never_normalized. rewrite HK. discriminate. }
      rewrite E in N. discriminate.
  - intros (created & pair & side & size & price & oid & C & P & S & Z' & R & O & ->).
    now apply fill_shaped_is_normalized.
Qed.

(** X11: a record that is no JSON object is refused with [TypeError], and
    an object is refused with [KeyError] for the first base key it lacks,
    in the order created_at, product_id, side, size, price, whatever else
    it lacks. *)
Theorem first_missing_key_is_reported :
  (forall trade, (forall members, trade <> JObj members) ->
     exists what, _trade_normalization trade = Raise (TypeError what))
  /\ (forall members pre k post,
        base_keys = pre ++ k :: post ->
        (forall k', In k' pre -> is_Some (assoc k' members)) ->
        assoc k members = None ->
        _trade_normalization (JObj members) = Raise (KeyError k)).
Proof.
  split.
  - intros trade N. unfold _trade_normalization.
    destruct trade; try (eexists; reflexivity). exfalso. now apply (N members).
  - intros members pre k post B H A.
    assert (G : forall key v, assoc key members = Some v ->
                              getitem (JObj members) key = Ok v).
    { intros key v Hk. simpl. now rewrite Hk. }
    assert (Gk : getitem (JObj members) k = Raise (KeyError k)).
    { simpl. now rewrite A. }
    unfold base_keys in B. unfold _trade_normalization.
    destruct pre as [|p1 pre]; [injection B as <- _; now rewrite Gk|].
    injection B as <- B.
    destruct (H "created_at") as [v1 H1]; [simpl; auto|].
    rewrite (G _ _ H1). cbn [res_bind].
    destruct pre as [|p2 pre]; [injection B as <- _; now rewrite Gk|].
    injection B as <- B.
    destruct (H "product_id") as [v2 H2]; [simpl; auto|].
    rewrite (G _ _ H2). cbn [res_bind].
    destruct pre as [|p3 pre]; [injection B as <- _; now rewrite Gk|].
    injection B as <- B.
    destruct (H "side") as [v3 H3]; [simpl; auto|].
    rewrite (G _ _ H3). cbn [res_bind].
    destruct pre as [|p4 pre]; [injection B as <- _; now rewrite Gk|].
    injection B as <- B.
    destruct (H "size") as [v4 H4]; [simpl; auto|].
    rewrite (G _ _ H4). cbn [res_bind].
    destruct pre as [|p5 pre]; [injection B as <- _; now rewrite Gk|].
    injection B as _ B. destruct pre; discriminate B.
Qed.

End NormalizationBehaviour.

(** ** The operations *)

Section OperationsBehaviour.
Context {env : Collaborators} (self : client).

Lemma signature_leaves_ticked endpoint method body w o w1 :
  _generate_signature self endpoint method body w = (o, w1) -> w1 = ticked w.
Proof. rewrite generate_signature_run. now intros [= _ <-]. Qed.

Lemma map_res_Forall2 {A B} (f : A -> res B) items l :
  map_res f items = Ok l <-> Forall2 (fun x y => f x = Ok y) items l.
Proof.
  revert l. induction items as [|x items IH]; intros l; simpl.
  - split; [intros [= <-]; constructor|intros H; now inversion H].
  - destruct (f x) as [y|e] eqn:F.
    + destruct (map_res f items) as [ys|e] eqn:M.
      * split.
        { intros [= <-]. constructor; [exact F|]. now apply IH. }
        { intros H. inversion H as [|? y' ? ys' Fy Hys]; subst.
          rewrite F in Fy. injection Fy as <-.
          apply IH in Hys. now injection Hys as <-. }
      * split; [discriminate|].
        intros H. inversion H as [|? y' ? ys' Fy Hys]; subst.
        apply IH in Hys. discriminate.
    + split; [discriminate|].
      intros H. inversion H as [|? y' ? ys' Fy Hys]; subst. congruence.
Qed.

Lemma map_res_raises {A B} (f : A -> res B) items x :
  In x items -> is_ok (f x) = false -> is_ok (map_res f items) = false.
Proof.
  induction items as [|y items IH]; intros I N; [destruct I|]. simpl.
  destruct I as [->|I].
  - destruct (f x); [discriminate|reflexivity].
  - destruct (f y); [|reflexivity].
    specialize (IH I N). destruct (map_res f items); [discriminate|reflexivity].
Qed.

(** A signed request that is answered with status 200. *)
Lemma signed_request_answered fuel method endpoint signed_body header body w r :
  dispatched method = true ->
  _generate_signature self endpoint method signed_body w = (Some (Ok header), ticked w) ->
  transport w (attempts w) = Responds r ->
  status_code r = 200 ->
  (header <- _generate_signature self endpoint method signed_body ;;
   _make_request self (S fuel) method endpoint (PyData header) body) w
  = (Some (resp_json r),
     sent (request_event self method endpoint (PyData header) body) (ticked w)).
Proof.
  intros D G T E. rewrite (bind_ok _ _ _ _ _ G).
  unfold _make_request. now apply status_200_returns_body.
Qed.

Lemma get_orders_answered fuel body w endpoint header r data :
  orders_endpoint body = Ok endpoint ->
  _generate_signature self endpoint "GET" "" w = (Some (Ok header), ticked w) ->
  transport w (attempts w) = Responds r ->
  status_code r = 200 ->
  parsed r = Some data ->
  get_orders self (S fuel) body w =
    (Some (items <-? iterate data;
           map_res (fun x => call_method1 "_trade_normalization" _trade_normalization [x])
                   items)%res,
     sent (request_event self "GET" endpoint (PyData header) None) (ticked w)).
Proof.
  intros O G T E P. unfold get_orders, _get_orders.
  rewrite bind_lift, O. cbn beta iota.
  rewrite (bind_ok _ _ _ _ _ G).
  assert (R : _make_request self (S fuel) "GET" endpoint (PyData header) None (ticked w)
              = (Some (Ok data),
                 sent (request_event self "GET" endpoint (PyData header) None) (ticked w))).
  { unfold _make_request. rewrite (status_200_returns_body _ _ _ _ _ _ _ _ _ r); auto.
    unfold resp_json. now rewrite P. }
  rewrite (bind_ok _ _ _ _ _ R), bind_lift.
  destruct (iterate data); reflexivity.
Qed.

(** X12: when the listing request is answered with status 200 and a list,
    [get_orders] has made exactly one GET for the endpoint it built, and it
    returns a list exactly when every listed record normalises: then one
    normalised record per listed record, in the order of the listing. *)
Theorem listed_records_are_normalized_in_order
    fuel body w endpoint header r items l :
  orders_endpoint body = Ok endpoint ->
  _generate_signature self endpoint "GET" "" w = (Some (Ok header), ticked w) ->
  transport w (attempts w) = Responds r ->
  status_code r = 200 ->
  parsed r = Some (JList items) ->
  snd (get_orders self (S fuel) body w)
    = sent (request_event self "GET" endpoint (PyData header) None) (ticked w)
  /\ (fst (get_orders self (S fuel) body w) = Some (Ok l) <->
      Forall2 (fun x d => _trade_normalization x = Ok d) items l).
Proof.
  intros O G T E P.
  rewrite (get_orders_answered fuel body w endpoint header r (JList items)) by assumption.
  split; [reflexivity|]. cbn [fst iterate res_bind].
  split.
  - intros [= M]. apply map_res_Forall2 in M. exact M.
  - intros F. do 2 f_equal.
    apply (map_res_Forall2
             (fun x => call_method1 "_trade_normalization" _trade_normalization [x])).
    exact F.
Qed.

(** X13: one listed record without [order_id], which is how the exchange
    lists an order, fails the whole listing: [get_orders] raises after its
    one GET and returns no record at all. *)
Theorem one_order_record_fails_the_listing
    fuel body w endpoint header r items x :
  orders_endpoint body = Ok endpoint ->
  _generate_signature self endpoint "GET" "" w = (Some (Ok header), ticked w) ->
  transport w (attempts w) = Responds r ->
  status_code r = 200 ->
  parsed r = Some (JList items) ->
  In x items ->
  has_key x "order_id" <> Ok true ->
  exists e,
    get_orders self (S fuel) body w
    = (Some (Raise e),
       sent (request_event self "GET" endpoint (PyData header) None) (ticked w)).
Proof.
  intros O G T E P I N.
  rewrite (get_orders_answered fuel body w endpoint header r (JList items)) by assumption.
  cbn [iterate res_bind].
  pose proof (map_res_raises
                (fun x => call_method1 "_trade_normalization" _trade_normalization [x])
                items x I (without_order_id_never_normalized x N)) as M.
  destruct (map_res _ items) as [l|e]; [discriminate M|]. now exists e.
Qed.

(** X14: [get_order] makes one GET for /orders/ followed by the id and
    returns the normalisation of the answer; when the answer has no
    [order_id], as an order of the exchange has none, that is an
    exception. *)
Theorem get_order_normalizes_the_answer fuel order_id w header r j :
  _generate_signature self ("/orders/" +:+ order_id) "GET" "" w
    = (Some (Ok header), ticked w) ->
  transport w (attempts w) = Responds r ->
  status_code r = 200 ->
  parsed r = Some j ->
  get_order self (S fuel) order_id w
    = (Some (_trade_normalization j),
       sent (request_event self "GET" ("/orders/" +:+ order_id) (PyData header) None)
            (ticked w))
  /\ (has_key j "order_id" <> Ok true -> is_ok (_trade_normalization j) = false).
Proof.
  intros G T E P. split; [|apply without_order_id_never_normalized].
  unfold get_order, _get_order. cbv zeta.
  assert (R : (header <- _generate_signature self ("/orders/" +:+ order_id) "GET" "" ;;
               _make_request self (S fuel) "GET" ("/orders/" +:+ order_id)
                 (PyData header) None) w
              = (Some (Ok j),
                 sent (request_event self "GET" ("/orders/" +:+ order_id)
                         (PyData header) None) (ticked w))).
  { rewrite (signed_request_answered fuel "GET" _ "" header None w r) by auto.
    unfold resp_json. now rewrite P. }
  rewrite (bind_ok _ _ _ _ _ R). reflexivity.
Qed.

(** X15: [_post_order] signs the serialisation of the very body it
    sends: one POST to /orders carries the body as JSON, under headers
    whose signature is the one of the specification over
    [json.dumps(body)]; the answer of a 200 is returned as parsed.  The
    retry budget and wait it is given play no part. *)
Theorem post_order_signs_the_body_it_sends fuel body retry retry_wait w key r :
  b64decode (key_secret self) = Ok key ->
  is_ok (ascii_encode (clock w (clock_reads w) +:+ "POST" +:+ "/orders"
                       +:+ json_dumps body)) = true ->
  transport w (attempts w) = Responds r ->
  status_code r = 200 ->
  exists header,
    _post_order self (S fuel) body retry retry_wait w
      = (Some (resp_json r),
         sent (EvRequest "POST" (base_url self +:+ "/orders") (PyData header) (Some body))
              (ticked w))
    /\ getitem header "CB-ACCESS-SIGN"
       = Ok (JStr (spec_signature key (clock w (clock_reads w)) "POST" "/orders"
                     (json_dumps body))).
Proof.
  intros K A T E.
  destruct (ascii_encode _) as [m|] eqn:Em; [|discriminate].
  pose proof (generate_signature_run self "/orders" "POST" (json_dumps body) w) as G.
  cbn zeta in G. rewrite K, Em in G. cbn [res_bind] in G.
  eexists. split.
  - unfold _post_order. cbv zeta.
    rewrite (signed_request_answered fuel "POST" "/orders" (json_dumps body) _
               (Some body) w r eq_refl G T E).
    reflexivity.
  - apply ascii_encode_bytes in Em. subst m.
    unfold spec_signature. rewrite !bytes_of_app. reflexivity.
Qed.

(** X16: [execute_trades] stops at the first trade that fails.  When the
    exchange accepts the first order and answers with a record that has no
    [order_id], as its order records have none, the call raises after that
    one POST: the order has been placed, nothing is returned, and the
    remaining trades are never sent. *)
Theorem execute_trades_stops_after_the_first_order
    fuel trade rest w header r j :
  _generate_signature self "/orders" "POST" (json_dumps trade) w
    = (Some (Ok header), ticked w) ->
  transport w (attempts w) = Responds r ->
  status_code r = 200 ->
  parsed r = Some j ->
  has_key j "order_id" <> Ok true ->
  exists e,
    execute_trades self (S fuel) (trade :: rest) w
    = (Some (Raise e),
       sent (request_event self "POST" "/orders" (PyData header) (Some trade)) (ticked w)).
Proof.
  intros G T E P N. cbn [execute_trades]. unfold _post_order. cbv zeta.
  assert (R : (header <- _generate_signature self "/orders" "POST" (json_dumps trade) ;;
               _make_request self (S fuel) "POST" "/orders" (PyData header) (Some trade)) w
              = (Some (Ok j),
                 sent (request_event self "POST" "/orders" (PyData header) (Some trade))
                      (ticked w))).
  { rewrite (signed_request_answered fuel "POST" "/orders" _ header (Some trade) w r)
      by auto.
    unfold resp_json. now rewrite P. }
  rewrite (bind_ok _ _ _ _ _ R), bind_lift.
  pose proof (without_order_id_never_normalized j N) as M.
  destruct (_trade_normalization j) as [d|e]; [discriminate M|]. now exists e.
Qed.

(** X17: when [execute_trades] returns, it returns one record per trade,
    and it has made exactly one HTTP call and one clock reading per trade
    and has never slept. *)
Theorem executed_trades_are_accounted_for (trades : list json) :
  forall fuel w l w',
    execute_trades self fuel trades w = (Some (Ok l), w') ->
    length l = length trades
    /\ attempts w' = (attempts w + length trades)%nat
    /\ clock_reads w' = (clock_reads w + length trades)%nat
    /\ sleeps (trace w') = sleeps (trace w).
Proof.
  induction trades as [|trade rest IH]; intros fuel w l w'.
  - cbn. intros [= <- <-]. repeat split; lia.
  - cbn [execute_trades]. unfold _post_order. cbv zeta.
    unfold bind at 1. unfold bind at 1.
    destruct (_generate_signature self "/orders" "POST" (json_dumps trade) w)
      as [[[header|x]|] w0] eqn:G; try discriminate.
    apply signature_leaves_ticked in G. subst w0.
    destruct fuel as [|fuel]; [discriminate|].
    destruct (make_request_accounting self fuel "POST" "/orders" (PyData header)
                (Some trade) (ticked w))
      as (outcome & w1 & R & A1 & S1 & C1 & T1 & K1).
    rewrite R. destruct outcome as [j|x]; [|discriminate].
    rewrite bind_lift.
    destruct (_trade_normalization j) as [d|x]; [|discriminate].
    unfold bind at 1.
    specialize (IH (S fuel) w1).
    destruct (execute_trades self (S fuel) rest w1) as [[[ds|x]|] w2]; try discriminate.
    unfold ret. intros [= <- <-].
    destruct (IH ds w2 eq_refl) as (L & A & C & S').
    simpl in A1, C1, S1. simpl.
    repeat split; [lia|lia|lia|congruence].
Qed.

(** X18: [fills] returns nothing but the empty list: whatever the
    symbol, the dates and the budget, and whatever the exchange answers, a
    call that returns, returns []. *)
Theorem fills_returns_only_the_empty_list
    fuel symbol start_date end_date retry retry_wait w l :
  fst (fills self fuel symbol start_date end_date retry retry_wait w) = Some (Ok l) ->
  l = [].
Proof. unfold fills. apply get_fills_returns_only_empty. Qed.

(** X19: a symbol the pair translator refuses ends [fills], and a product
    it refuses ends [get_orders], with the translator's exception before
    anything is done: no clock reading, no signature, no HTTP call, no
    log. *)
Theorem unknown_pair_makes_no_request fuel s e w :
  pair_std_to_exchange s ID = Raise e ->
  (forall start_date end_date retry retry_wait,
     fills self fuel (Some s) start_date end_date retry retry_wait w = (Some (Raise e), w))
  /\ (forall statuses,
        get_orders self fuel {| status := statuses; product_id := Some s |} w
        = (Some (Raise e), w)).
Proof.
  intros P. split.
  - intros start_date end_date retry retry_wait.
    unfold fills, _get_fills, fetch_fills.
    unfold bind at 1. rewrite bind_lift. unfold fills_endpoint. now rewrite P.
  - intros statuses. unfold get_orders, _get_orders.
    rewrite bind_lift. unfold orders_endpoint. cbn [status product_id]. now rewrite P.
Qed.

(** X20: the one way [fills] returns: when the exchange answers 200 with
    the empty list, whatever the dates and the budget, [fills] has made one
    GET for /fills (with the product of the translated symbol when one is
    given), has logged the no-data warning, and returns []. *)
Theorem fills_on_an_empty_answer
    fuel symbol start_date end_date retry retry_wait w sym endpoint header r :
  fills_endpoint symbol = Ok (sym, endpoint) ->
  _generate_signature self endpoint "GET" "" w = (Some (Ok header), ticked w) ->
  transport w (attempts w) = Responds r ->
  status_code r = 200 ->
  parsed r = Some (JList []) ->
  fills self (S fuel) symbol start_date end_date retry retry_wait w
    = (Some (Ok []),
       logged [EvLog Warning "%s: No data"]
         (sent (request_event self "GET" endpoint (PyData header) None) (ticked w))).
Proof.
  intros P G T E B. unfold fills.
  apply (get_fills_on_no_data self (S fuel) symbol retry retry_wait start_date end_date
           w sym).
  unfold fetch_fills. rewrite bind_lift, P. cbn beta iota.
  rewrite (bind_ok _ _ _ _ _ G).
  assert (R : _make_request self (S fuel) "GET" endpoint (PyData header) None (ticked w)
              = (Some (Ok (JList [])),
                 sent (request_event self "GET" endpoint (PyData header) None) (ticked w))).
  { unfold _make_request. rewrite (status_200_returns_body _ _ _ _ _ _ _ _ _ r); auto.
    unfold resp_json. now rewrite B. }
  now rewrite (bind_ok _ _ _ _ _ R).
Qed.

End OperationsBehaviour.

(** ** The further properties on sample inputs *)

Section FurtherRuns.
#[local] Existing Instance Reference.env.

(** A PUT. *)
Lemma unknown_method_makes_no_request_witness :
  dispatched "PUT" = false
  /\ request_loop Sample.account 1 (Sample.globals_with_wait (PyInt 10))
       (Sample.frame_with_retry (PyInt 2)) "PUT" "/orders" PyNone None Sample.offline
     = (Some (Raise (UnboundLocalError "resp")), Sample.offline)
  /\ _make_request Sample.account 1 "PUT" "/orders" PyNone None Sample.offline
     = (Some (Raise (UnboundLocalError "resp")), Sample.offline).
Proof.
  split; [reflexivity|].
  exact (unknown_method_makes_no_request Sample.account 0
           (Sample.globals_with_wait (PyInt 10)) (Sample.frame_with_retry (PyInt 2))
           "PUT" "/orders" PyNone None Sample.offline eq_refl).
Defined.

(** An invalid URL, with a budget of two in the frame. *)
Lemma other_exceptions_are_not_caught_witness :
  dispatched "GET" = true
  /\ transport Scenario.refusing (attempts Scenario.refusing)
     = Fails (ValueError "Invalid URL")
  /\ transport_failure (ValueError "Invalid URL") = false
  /\ request_loop Sample.account 1 (Sample.globals_with_wait (PyInt 10))
       (Sample.frame_with_retry (PyInt 2)) "GET" "/fills" PyNone None Scenario.refusing
     = (Some (Raise (ValueError "Invalid URL")),
        sent (request_event Sample.account "GET" "/fills" PyNone None) Scenario.refusing).
Proof.
  split; [reflexivity|]. split; [reflexivity|]. split; [reflexivity|].
  exact (other_exceptions_are_not_caught Sample.account 0
           (Sample.globals_with_wait (PyInt 10)) (Sample.frame_with_retry (PyInt 2))
           "GET" "/fills" PyNone None Scenario.refusing (ValueError "Invalid URL")
           eq_refl eq_refl eq_refl).
Defined.

(** A 404, with a budget of two in the frame. *)
Lemma http_error_ends_the_call_witness :
  dispatched "GET" = true
  /\ transport (Sample.answering 404 JNull) (attempts (Sample.answering 404 JNull))
     = Responds (Sample.reply 404 JNull)
  /\ 400 <= status_code (Sample.reply 404 JNull) < 600
  /\ exists evs,
       request_loop Sample.account 1 (Sample.globals_with_wait (PyInt 10))
         (Sample.frame_with_retry (PyInt 2)) "GET" "/fills" PyNone None
         (Sample.answering 404 JNull)
       = (Some (Raise (HTTPError (status_code (Sample.reply 404 JNull)))),
          logged evs (sent (request_event Sample.account "GET" "/fills" PyNone None)
                           (Sample.answering 404 JNull)))
       /\ forallb is_log evs = true
       /\ In (EvLog Error "%s: Status code %d") evs
       /\ (In (EvLog Error "%s: Resp: %s") evs <->
           ~ (status_code (Sample.reply 404 JNull) = 401
              \/ status_code (Sample.reply 404 JNull) = 403
              \/ status_code (Sample.reply 404 JNull) = 404
              \/ status_code (Sample.reply 404 JNull) = 500)).
Proof.
  assert (B : 400 <= status_code (Sample.reply 404 JNull) < 600) by (simpl; lia).
  split; [reflexivity|]. split; [reflexivity|]. split; [exact B|].
  exact (http_error_ends_the_call Sample.account 0
           (Sample.globals_with_wait (PyInt 10)) (Sample.frame_with_retry (PyInt 2))
           "GET" "/fills" PyNone None (Sample.answering 404 JNull)
           (Sample.reply 404 JNull) eq_refl eq_refl B).
Defined.

(** A DELETE that is given a body, answered with 200. *)
Lemma ok_answer_is_returned_silently_witness :
  dispatched "DELETE" = true
  /\ transport (Sample.answering 200 (JList [])) (attempts (Sample.answering 200 (JList [])))
     = Responds (Sample.reply 200 (JList []))
  /\ status_code (Sample.reply 200 (JList [])) = 200
  /\ exists w',
       request_loop Sample.account 1 module_globals ∅ "DELETE" "/orders" PyNone
         (Some Sample.new_order) (Sample.answering 200 (JList []))
       = (Some (Ok (JList [])), w')
       /\ attempts w' = S (attempts (Sample.answering 200 (JList [])))
       /\ trace w' = trace (Sample.answering 200 (JList [])) ++
            [EvRequest "DELETE" "https://api.gdax.com/orders" PyNone None].
Proof.
  split; [reflexivity|]. split; [reflexivity|]. split; [reflexivity|].
  exact (ok_answer_is_returned_silently Sample.account 0 module_globals ∅
           "DELETE" "/orders" PyNone (Some Sample.new_order)
           (Sample.answering 200 (JList [])) (Sample.reply 200 (JList []))
           eq_refl eq_refl eq_refl).
Defined.

(** A secret that is no base64, and an order id with an e-acute. *)
Lemma signing_fails_before_any_request_witness :
  b64decode (key_secret Scenario.unusable_account) = Raise Base64Error
  /\ _generate_signature Scenario.unusable_account "/fills" "GET" "" Sample.offline
     = (Some (Raise Base64Error), ticked Sample.offline)
  /\ b64decode (key_secret Sample.account) = Ok (bytes_of "secret")
  /\ In (ascii_of_nat 233) (list_ascii_of_string ("/orders/" +:+ Scenario.odd_id))
  /\ 128 <= Z.of_nat (nat_of_ascii (ascii_of_nat 233))
  /\ _generate_signature Sample.account ("/orders/" +:+ Scenario.odd_id) "GET" ""
       Sample.offline
     = (Some (Raise UnicodeEncodeError), ticked Sample.offline).
Proof.
  assert (K0 : b64decode (key_secret Scenario.unusable_account) = Raise Base64Error)
    by (vm_compute; reflexivity).
  assert (K : b64decode (key_secret Sample.account) = Ok (bytes_of "secret"))
    by (vm_compute; reflexivity).
  assert (I : In (ascii_of_nat 233)
                (list_ascii_of_string ("/orders/" +:+ Scenario.odd_id)))
    by (vm_compute; auto 10).
  assert (B : 128 <= Z.of_nat (nat_of_ascii (ascii_of_nat 233)))
    by (vm_compute; discriminate).
  split; [exact K0|]. split.
  { exact (proj1 (signing_fails_before_any_request Scenario.unusable_account
                    "/fills" "GET" "" Sample.offline) Base64Error K0). }
  split; [exact K|]. split; [exact I|]. split; [exact B|].
  exact (proj2 (signing_fails_before_any_request Sample.account
                  ("/orders/" +:+ Scenario.odd_id) "GET" "" Sample.offline)
           (bytes_of "secret") (ascii_of_nat 233) K (or_introl I) B).
Defined.

(** Two signatures under a clock that moves. *)
Lemma each_signature_reads_the_clock_anew_witness :
  let w := Scenario.ticking (fun _ => Fails ConnectionError) in
  let h1 := Scenario.signed_in Sample.account "/fills" "GET" "" w in
  let h2 := Scenario.signed_in Sample.account "/orders" "GET" "" (ticked w) in
  _generate_signature Sample.account "/fills" "GET" "" w = (Some (Ok h1), ticked w)
  /\ _generate_signature Sample.account "/orders" "GET" "" (ticked w)
     = (Some (Ok h2), ticked (ticked w))
  /\ getitem h1 "CB-ACCESS-TIMESTAMP" = Ok (JStr "1500000000.25")
  /\ getitem h2 "CB-ACCESS-TIMESTAMP" = Ok (JStr "1500000001.5")
  /\ clock_reads (ticked (ticked w)) = 2%nat.
Proof.
  intros w h1 h2.
  assert (G1 : _generate_signature Sample.account "/fills" "GET" "" w
               = (Some (Ok h1), ticked w)) by (vm_compute; reflexivity).
  assert (G2 : _generate_signature Sample.account "/orders" "GET" "" (ticked w)
               = (Some (Ok h2), ticked (ticked w))) by (vm_compute; reflexivity).
  split; [exact G1|]. split; [exact G2|].
  exact (each_signature_reads_the_clock_anew Sample.account
           "/fills" "GET" "" "/orders" "GET" "" w h1 (ticked w) h2 (ticked (ticked w))
           G1 G2).
Defined.

Example sample_fill_is_normalized_exactly :
  _trade_normalization Sample.fill = Ok Scenario.normalized_fill
  /\ is_ok (_trade_normalization Sample.order) = false.
Proof. split; reflexivity. Qed.

(** A string instead of a record, and a fill without its side. *)
Lemma first_missing_key_is_reported_witness :
  (forall members, JStr "trade_id" <> JObj members)
  /\ (exists what, _trade_normalization (JStr "trade_id") = Raise (TypeError what))
  /\ base_keys = ["created_at"; "product_id"] ++ "side" :: ["size"; "price"]
  /\ (forall k', In k' ["created_at"; "product_id"] ->
        is_Some (assoc k' Scenario.sideless_fill))
  /\ assoc "side" Scenario.sideless_fill = None
  /\ _trade_normalization (JObj Scenario.sideless_fill) = Raise (KeyError "side").
Proof.
  assert (N : forall members, JStr "trade_id" <> JObj members) by discriminate.
  assert (H : forall k', In k' ["created_at"; "product_id"] ->
                is_Some (assoc k' Scenario.sideless_fill)).
  { intros k' [<-|[<-|[]]]; eexists; reflexivity. }
  split; [exact N|]. split.
  { exact (proj1 first_missing_key_is_reported (JStr "trade_id") N). }
  split; [reflexivity|]. split; [exact H|]. split; [reflexivity|].
  exact (proj2 first_missing_key_is_reported Scenario.sideless_fill
           ["created_at"; "product_id"] "side" ["size"; "price"] eq_refl H eq_refl).
Defined.

(** A listing of two fills. *)
Lemma listed_records_are_normalized_in_order_witness :
  let w := Sample.answering 200 (JList [Sample.fill; Sample.fill]) in
  let header := Sample.signed Scenario.listing_endpoint "GET" "" in
  orders_endpoint Sample.both_filters = Ok Scenario.listing_endpoint
  /\ _generate_signature Sample.account Scenario.listing_endpoint "GET" "" w
     = (Some (Ok header), ticked w)
  /\ transport w (attempts w) = Responds (Sample.reply 200 (JList [Sample.fill; Sample.fill]))
  /\ status_code (Sample.reply 200 (JList [Sample.fill; Sample.fill])) = 200
  /\ parsed (Sample.reply 200 (JList [Sample.fill; Sample.fill]))
     = Some (JList [Sample.fill; Sample.fill])
  /\ snd (get_orders Sample.account 1 Sample.both_filters w)
     = sent (request_event Sample.account "GET" Scenario.listing_endpoint
               (PyData header) None) (ticked w)
  /\ (fst (get_orders Sample.account 1 Sample.both_filters w)
      = Some (Ok [Scenario.normalized_fill; Scenario.normalized_fill]) <->
      Forall2 (fun x d => _trade_normalization x = Ok d) [Sample.fill; Sample.fill]
        [Scenario.normalized_fill; Scenario.normalized_fill]).
Proof.
  intros w header.
  assert (O : orders_endpoint Sample.both_filters = Ok Scenario.listing_endpoint)
    by (vm_compute; reflexivity).
  assert (G : _generate_signature Sample.account Scenario.listing_endpoint "GET" "" w
              = (Some (Ok header), ticked w)) by (vm_compute; reflexivity).
  split; [exact O|]. split; [exact G|]. split; [reflexivity|]. split; [reflexivity|].
  split; [reflexivity|].
  exact (listed_records_are_normalized_in_order Sample.account 0 Sample.both_filters w
           Scenario.listing_endpoint header
           (Sample.reply 200 (JList [Sample.fill; Sample.fill]))
           [Sample.fill; Sample.fill]
           [Scenario.normalized_fill; Scenario.normalized_fill]
           O G eq_refl eq_refl eq_refl).
Defined.

Example listing_of_two_fills :
  fst (get_orders Sample.account 1 Sample.both_filters
         (Sample.answering 200 (JList [Sample.fill; Sample.fill])))
  = Some (Ok [Scenario.normalized_fill; Scenario.normalized_fill]).
Proof. reflexivity. Qed.

(** A listing of a fill and an order. *)
Lemma one_order_record_fails_the_listing_witness :
  let w := Sample.answering 200 (JList [Sample.fill; Sample.order]) in
  let header := Sample.signed Scenario.listing_endpoint "GET" "" in
  orders_endpoint Sample.both_filters = Ok Scenario.listing_endpoint
  /\ _generate_signature Sample.account Scenario.listing_endpoint "GET" "" w
     = (Some (Ok header), ticked w)
  /\ transport w (attempts w) = Responds (Sample.reply 200 (JList [Sample.fill; Sample.order]))
  /\ status_code (Sample.reply 200 (JList [Sample.fill; Sample.order])) = 200
  /\ parsed (Sample.reply 200 (JList [Sample.fill; Sample.order]))
     = Some (JList [Sample.fill; Sample.order])
  /\ In Sample.order [Sample.fill; Sample.order]
  /\ has_key Sample.order "order_id" <> Ok true
  /\ exists e,
       get_orders Sample.account 1 Sample.both_filters w
       = (Some (Raise e),
          sent (request_event Sample.account "GET" Scenario.listing_endpoint
                  (PyData header) None) (ticked w)).
Proof.
  intros w header.
  assert (O : orders_endpoint Sample.both_filters = Ok Scenario.listing_endpoint)
    by (vm_compute; reflexivity).
  assert (G : _generate_signature Sample.account Scenario.listing_endpoint "GET" "" w
              = (Some (Ok header), ticked w)) by (vm_compute; reflexivity).
  assert (I : In Sample.order [Sample.fill; Sample.order]) by (right; left; reflexivity).
  assert (N : has_key Sample.order "order_id" <> Ok true) by (vm_compute; discriminate).
  split; [exact O|]. split; [exact G|]. split; [reflexivity|]. split; [reflexivity|].
  split; [reflexivity|]. split; [exact I|]. split; [exact N|].
  exact (one_order_record_fails_the_listing Sample.account 0 Sample.both_filters w
           Scenario.listing_endpoint header
           (Sample.reply 200 (JList [Sample.fill; Sample.order]))
           [Sample.fill; Sample.order] Sample.order O G eq_refl eq_refl eq_refl I N).
Defined.

(** The order of the sample, asked for by its id. *)
Lemma get_order_normalizes_the_answer_witness :
  let w := Sample.answering 200 Sample.order in
  let header := Sample.signed ("/orders/" +:+ "68e6a28f") "GET" "" in
  _generate_signature Sample.account ("/orders/" +:+ "68e6a28f") "GET" "" w
    = (Some (Ok header), ticked w)
  /\ transport w (attempts w) = Responds (Sample.reply 200 Sample.order)
  /\ status_code (Sample.reply 200 Sample.order) = 200
  /\ parsed (Sample.reply 200 Sample.order) = Some Sample.order
  /\ get_order Sample.account 1 "68e6a28f" w
     = (Some (Raise (KeyError "fill_fees")),
        sent (request_event Sample.account "GET" ("/orders/" +:+ "68e6a28f")
                (PyData header) None) (ticked w))
  /\ (has_key Sample.order "order_id" <> Ok true ->
      is_ok (_trade_normalization Sample.order) = false).
Proof.
  intros w header.
  assert (G : _generate_signature Sample.account ("/orders/" +:+ "68e6a28f") "GET" "" w
              = (Some (Ok header), ticked w)) by (vm_compute; reflexivity).
  split; [exact G|]. split; [reflexivity|]. split; [reflexivity|]. split; [reflexivity|].
  exact (get_order_normalizes_the_answer Sample.account 0 "68e6a28f" w header
           (Sample.reply 200 Sample.order) Sample.order G eq_refl eq_refl eq_refl).
Defined.

(** The docstring order, posted. *)
Lemma post_order_signs_the_body_it_sends_witness :
  let w := Sample.answering 200 Sample.order in
  b64decode (key_secret Sample.account) = Ok (bytes_of "secret")
  /\ is_ok (ascii_encode (clock w (clock_reads w) +:+ "POST" +:+ "/orders"
                          +:+ json_dumps Sample.new_order)) = true
  /\ transport w (attempts w) = Responds (Sample.reply 200 Sample.order)
  /\ status_code (Sample.reply 200 Sample.order) = 200
  /\ exists header,
       _post_order Sample.account 1 Sample.new_order (PyInt 2) (PyInt 10) w
       = (Some (Ok Sample.order),
          sent (EvRequest "POST" "https://api.gdax.com/orders" (PyData header)
                  (Some Sample.new_order)) (ticked w))
       /\ getitem header "CB-ACCESS-SIGN"
          = Ok (JStr (spec_signature (bytes_of "secret") (clock w (clock_reads w))
                        "POST" "/orders" (json_dumps Sample.new_order))).
Proof.
  intros w.
  assert (K : b64decode (key_secret Sample.account) = Ok (bytes_of "secret"))
    by (vm_compute; reflexivity).
  assert (A : is_ok (ascii_encode (clock w (clock_reads w) +:+ "POST" +:+ "/orders"
                                   +:+ json_dumps Sample.new_order)) = true)
    by (vm_compute; reflexivity).
  split; [exact K|]. split; [exact A|]. split; [reflexivity|]. split; [reflexivity|].
  exact (post_order_signs_the_body_it_sends Sample.account 0 Sample.new_order
           (PyInt 2) (PyInt 10) w (bytes_of "secret") (Sample.reply 200 Sample.order)
           K A eq_refl eq_refl).
Defined.

(** Two trades, the first answered with the order the exchange made of it. *)
Lemma execute_trades_stops_after_the_first_order_witness :
  let w := Sample.answering 200 Sample.order in
  let header := Sample.signed "/orders" "POST" (json_dumps Sample.new_order) in
  _generate_signature Sample.account "/orders" "POST" (json_dumps Sample.new_order) w
    = (Some (Ok header), ticked w)
  /\ transport w (attempts w) = Responds (Sample.reply 200 Sample.order)
  /\ status_code (Sample.reply 200 Sample.order) = 200
  /\ parsed (Sample.reply 200 Sample.order) = Some Sample.order
  /\ has_key Sample.order "order_id" <> Ok true
  /\ exists e,
       execute_trades Sample.account 1 [Sample.new_order; Sample.new_order] w
       = (Some (Raise e),
          sent (request_event Sample.account "POST" "/orders" (PyData header)
                  (Some Sample.new_order)) (ticked w)).
Proof.
  intros w header.
  assert (G : _generate_signature Sample.account "/orders" "POST"
                (json_dumps Sample.new_order) w = (Some (Ok header), ticked w))
    by (vm_compute; reflexivity).
  assert (N : has_key Sample.order "order_id" <> Ok true) by (vm_compute; discriminate).
  split; [exact G|]. split; [reflexivity|]. split; [reflexivity|]. split; [reflexivity|].
  split; [exact N|].
  exact (execute_trades_stops_after_the_first_order Sample.account 0 Sample.new_order
           [Sample.new_order] w header (Sample.reply 200 Sample.order) Sample.order
           G eq_refl eq_refl eq_refl N).
Defined.

Example two_trades_one_post :
  let run := execute_trades Sample.account 1 [Sample.new_order; Sample.new_order]
               (Sample.answering 200 Sample.order) in
  fst run = Some (Raise (KeyError "fill_fees"))
  /\ attempts (snd run) = 1%nat
  /\ requests_in (trace (snd run)) = 1%nat.
Proof. vm_compute. repeat split; reflexivity. Qed.

(** Two trades, each answered with a fill. *)
Lemma executed_trades_are_accounted_for_witness :
  let w := Sample.answering 200 Sample.fill in
  let w' := snd (execute_trades Sample.account 1 [Sample.new_order; Sample.new_order] w) in
  execute_trades Sample.account 1 [Sample.new_order; Sample.new_order] w
    = (Some (Ok [Scenario.normalized_fill; Scenario.normalized_fill]), w')
  /\ length [Scenario.normalized_fill; Scenario.normalized_fill]
     = length [Sample.new_order; Sample.new_order]
  /\ attempts w' = (attempts w + length [Sample.new_order; Sample.new_order])%nat
  /\ clock_reads w' = (clock_reads w + length [Sample.new_order; Sample.new_order])%nat
  /\ sleeps (trace w') = sleeps (trace w).
Proof.
  intros w w'.
  assert (E : execute_trades Sample.account 1 [Sample.new_order; Sample.new_order] w
              = (Some (Ok [Scenario.normalized_fill; Scenario.normalized_fill]), w'))
    by reflexivity.
  split; [exact E|].
  exact (executed_trades_are_accounted_for Sample.account
           [Sample.new_order; Sample.new_order] 1 w
           [Scenario.normalized_fill; Scenario.normalized_fill] w' E).
Defined.

(** No fills on the exchange. *)
Lemma fills_returns_only_the_empty_list_witness :
  fst (fills Sample.account 1 (Some "BTC-USD") None None PyNone (PyInt 10)
         (Sample.answering 200 (JList []))) = Some (Ok [])
  /\ ([] : list (gmap string json)) = [].
Proof.
  assert (E : fst (fills Sample.account 1 (Some "BTC-USD") None None PyNone (PyInt 10)
                     (Sample.answering 200 (JList []))) = Some (Ok []))
    by (vm_compute; reflexivity).
  split; [exact E|].
  exact (fills_returns_only_the_empty_list Sample.account 1 (Some "BTC-USD") None None
           PyNone (PyInt 10) (Sample.answering 200 (JList [])) [] E).
Defined.

(** A pair the translator does not know. *)
Lemma unknown_pair_makes_no_request_witness :
  pair_std_to_exchange "DOGE-USD" ID = Raise (KeyError "DOGE-USD")
  /\ fills Sample.account 1 (Some "DOGE-USD") None None PyNone (PyInt 10) Sample.offline
     = (Some (Raise (KeyError "DOGE-USD")), Sample.offline)
  /\ get_orders Sample.account 1
       {| status := Some ["open"]; product_id := Some "DOGE-USD" |} Sample.offline
     = (Some (Raise (KeyError "DOGE-USD")), Sample.offline).
Proof.
  assert (P : pair_std_to_exchange "DOGE-USD" ID = Raise (KeyError "DOGE-USD"))
    by reflexivity.
  split; [exact P|].
  destruct (unknown_pair_makes_no_request Sample.account 1 "DOGE-USD"
              (KeyError "DOGE-USD") Sample.offline P) as [F O].
  split; [exact (F None None PyNone (PyInt 10))|exact (O (Some ["open"]))].
Defined.

(** No fills of BTC-USD on the exchange, asked for with both dates. *)
Lemma fills_on_an_empty_answer_witness :
  let w := Sample.answering 200 (JList []) in
  let header := Sample.signed "/fills?product_id=BTC-USD" "GET" "" in
  fills_endpoint (Some "BTC-USD") = Ok (JStr "BTC-USD", "/fills?product_id=BTC-USD")
  /\ _generate_signature Sample.account "/fills?product_id=BTC-USD" "GET" "" w
     = (Some (Ok header), ticked w)
  /\ transport w (attempts w) = Responds (Sample.reply 200 (JList []))
  /\ status_code (Sample.reply 200 (JList [])) = 200
  /\ parsed (Sample.reply 200 (JList [])) = Some (JList [])
  /\ fills Sample.account 1 (Some "BTC-USD") (Some (JStr "2014-11-01"))
       (Some (JStr "2014-12-01")) (PyInt 2) (PyInt 10) w
     = (Some (Ok []),
        logged [EvLog Warning "%s: No data"]
          (sent (request_event Sample.account "GET" "/fills?product_id=BTC-USD"
                   (PyData header) None) (ticked w))).
Proof.
  intros w header.
  assert (P : fills_endpoint (Some "BTC-USD")
              = Ok (JStr "BTC-USD", "/fills?product_id=BTC-USD")) by reflexivity.
  assert (G : _generate_signature Sample.account "/fills?product_id=BTC-USD" "GET" "" w
              = (Some (Ok header), ticked w)) by (vm_compute; reflexivity).
  split; [exact P|]. split; [exact G|]. split; [reflexivity|]. split; [reflexivity|].
  split; [reflexivity|].
  exact (fills_on_an_empty_answer Sample.account 0 (Some "BTC-USD")
           (Some (JStr "2014-11-01")) (Some (JStr "2014-12-01")) (PyInt 2) (PyInt 10)
           w (JStr "BTC-USD") "/fills?product_id=BTC-USD" header
           (Sample.reply 200 (JList [])) P G eq_refl eq_refl eq_refl).
Defined.

End FurtherRuns.
